(** * Tink (JavaScript): ECDSA public-key manager and PublicKeyVerify wrapper

    A shallow embedding of
      - [EcdsaPublicKeyFactory] and [EcdsaPublicKeyManager], and
      - [WrappedPublicKeyVerify], the wrapper of a primitive set of
        [PublicKeyVerify] primitives
    (javascript/signature),
    followed by the properties of the key-type guard and of the
    prefix-then-raw dispatch of the wrapped [verify].

    JavaScript exceptions (and rejected promises of [async] methods) are the
    [Thrown] case of [Result]; the wrapped [verify] additionally records every
    call it makes on its collaborators (the primitive set and the candidate
    primitives) in a trace, so that "is tried", "is not invoked" and "no
    lookup is performed" are statements about that trace. *)

From Stdlib Require Import List String Ascii ZArith Bool Arith Lia.
From Stdlib Require Import Strings.Byte.
From Stdlib Require Import Sorting.Permutation.
From ExtLib Require Import Structures.Monad Structures.MonadExc.
Import ListNotations.
Import MonadNotation.
Local Open Scope monad_scope.

(* ===================================================================== *)
(** ** Values, exceptions, results                                        *)
(* ===================================================================== *)

(** The contents of a [Uint8Array]. *)
Definition bytes : Type := list byte.

Definition bytes_eq_dec : forall a b : bytes, {a = b} + {a <> b} :=
  list_eq_dec byte_eq_dec.

(** The exceptions the modelled code throws or lets through. *)
Inductive Exn : Type :=
| SecurityException (msg : string)
| InvalidArgumentsException (msg : string)
| TypeError (msg : string)
| OtherException (msg : string).

(** Outcome of a call: a returned value or a thrown exception (for an
    [async] method: a resolved or a rejected promise). *)
Inductive Result (A : Type) : Type :=
| Ok (a : A)
| Thrown (e : Exn).
Arguments Ok {A} a.
Arguments Thrown {A} e.

#[global] Instance Monad_Result : Monad Result :=
  {| ret := fun _ a => Ok a
   ; bind := fun _ _ c k => match c with Ok a => k a | Thrown e => Thrown e end |}.

#[global] Instance Exc_Result : MonadExc Exn Result :=
  {| raise := fun _ e => Thrown e
   ; catch := fun _ c h => match c with Ok a => Ok a | Thrown e => h e end |}.

(** Modelled from the spec: the enum [PbKeyStatusType] of internal/proto is
    not part of the sources; the spec's KeyStatus is
    {ENABLED, DISABLED, DESTROYED}. *)
Inductive PbKeyStatusType : Type := ENABLED | DISABLED | DESTROYED.

Definition PbKeyStatusType_eqb (a b : PbKeyStatusType) : bool :=
  match a, b with
  | ENABLED, ENABLED | DISABLED, DISABLED | DESTROYED, DESTROYED => true
  | _, _ => false
  end.

(** Modelled from the spec: [OutputPrefixType] is
    {RAW, TINK, LEGACY, CRUNCHY}. *)
Inductive PbOutputPrefixType : Type := RAW | TINK | LEGACY | CRUNCHY.

Definition isRaw (t : PbOutputPrefixType) : bool :=
  match t with RAW => true | _ => false end.

(** Modelled from the spec: [PbKeyData] (the spec's SerializedKeyMaterial,
    [{typeUrl, value, status}]) of internal/proto. *)
Record PbKeyData : Type := mkPbKeyData
  { getTypeUrl : string
  ; getValue : bytes
  ; getStatus : PbKeyStatusType }.

(** Modelled from the spec: [PbEcdsaParams] and [PbEcdsaPublicKey] of
    internal/proto (the spec's "parameters + key components").  Protobuf
    enums are numbers in JavaScript.  A getter of an absent message field
    yields [undefined] and the getter of an absent bytes field yields the
    empty string: both are falsy and are [None] here; a field that was set
    holds an object, which is truthy, and is [Some]. *)
Record PbEcdsaParams : Type := mkPbEcdsaParams
  { getHashType : Z
  ; getCurve : Z
  ; getEncoding : Z }.

Record PbEcdsaPublicKey : Type := mkPbEcdsaPublicKey
  { getKeyVersion : Z
  ; getParams : option PbEcdsaParams
  ; getX : option bytes
  ; getY : option bytes }.

(** A JavaScript value as far as the modelled code distinguishes them
    (arguments typed [AnyDuringMigration]). *)
Inductive JsValue : Type :=
| JsUndefined
| JsNull
| JsBoolean (b : bool)
| JsNumber (n : Z)
| JsString (s : string)
| JsUint8Array (b : bytes)
| JsPbKeyData (kd : PbKeyData)
| JsPbEcdsaPublicKey (k : PbEcdsaPublicKey)
| JsOtherObject (className : string).

Definition isUint8Array (v : JsValue) : bool :=
  match v with JsUint8Array _ => true | _ => false end.

(** JavaScript truthiness of an optional field. *)
Definition truthy {A : Type} (o : option A) : bool :=
  match o with Some _ => true | None => false end.

(* ===================================================================== *)
(** ** The PublicKeyVerify interface and the primitive set               *)
(* ===================================================================== *)

(** The interface [PublicKeyVerify]: one method [verify(signature, data)]
    whose promise resolves to a boolean or rejects. *)
Record PublicKeyVerify : Type := mkPublicKeyVerify
  { verify : bytes -> bytes -> Result bool }.

(** Modelled from the spec: [PrimitiveSet.Entry] of internal/primitive_set
    (the spec's PrimitiveEntry); [getIdentifier] is the entry's tag, the
    prefix bytes under which a non-RAW entry is indexed. *)
Record Entry : Type := mkEntry
  { getPrimitive : PublicKeyVerify
  ; getIdentifier : bytes
  ; getOutputPrefixType : PbOutputPrefixType
  ; getKeyStatus : PbKeyStatusType
  ; isPrimary : bool }.

(** Modelled from the spec: [PrimitiveSet.PrimitiveSet] of
    internal/primitive_set is not part of the sources.  Following the
    spec's contract, a set is its entries in insertion order;
    [entriesForPrefix] answers "all entries (any status) whose tag equals
    the supplied bytes, in insertion order", [rawEntries] "all RAW entries
    in insertion order" (RAW entries live in the raw sequence only). *)
Module PrimitiveSet.

Record PrimitiveSet : Type := mkPrimitiveSet { entries : list Entry }.

Definition empty : PrimitiveSet := mkPrimitiveSet [].

Definition insert (e : Entry) (ps : PrimitiveSet) : PrimitiveSet :=
  mkPrimitiveSet (entries ps ++ [e]).

Definition hasPrefix (prefixBytes : bytes) (e : Entry) : bool :=
  negb (isRaw (getOutputPrefixType e)) &&
  (if bytes_eq_dec (getIdentifier e) prefixBytes then true else false).

Definition entriesForPrefix (ps : PrimitiveSet) (prefixBytes : bytes)
  : list Entry :=
  filter (hasPrefix prefixBytes) (entries ps).

Definition rawEntries (ps : PrimitiveSet) : list Entry :=
  filter (fun e => isRaw (getOutputPrefixType e)) (entries ps).

End PrimitiveSet.
Abbreviation PrimitiveSet := PrimitiveSet.PrimitiveSet.

(** The constant [CryptoFormat.NON_RAW_PREFIX_SIZE] of
    internal/crypto_format is not part of the sources; the code is
    embedded for any value of it. *)
Class CryptoFormat : Type :=
  { NON_RAW_PREFIX_SIZE : nat }.

(* ===================================================================== *)
(** ** Calls on collaborators and the traced computation                 *)
(* ===================================================================== *)

(** What the wrapper asks of its collaborators. *)
Inductive Event : Type :=
| EvGetPrimitives (keyId : bytes)
| EvGetRawPrimitives
| EvVerify (e : Entry) (signature data : bytes).

(** A computation that returns or throws and leaves the list of the calls
    it made, oldest first.  The calls made before an exception stay in the
    trace, also when the exception is caught. *)
Definition Traced (A : Type) : Type := (Result A * list Event)%type.

#[global] Instance Monad_Traced : Monad Traced :=
  {| ret := fun _ a => (Ok a, [])
   ; bind := fun _ _ c k =>
       match c with
       | (Ok a, t) => let (r, t') := k a in (r, t ++ t')
       | (Thrown e, t) => (Thrown e, t)
       end |}.

#[global] Instance Exc_Traced : MonadExc Exn Traced :=
  {| raise := fun _ e => (Thrown e, [])
   ; catch := fun _ c h =>
       match c with
       | (Ok a, t) => (Ok a, t)
       | (Thrown e, t) => let (r, t') := h e in (r, t ++ t')
       end |}.

(** [c] performs the call [ev] on a collaborator whose outcome is [r]. *)
Definition call {A : Type} (ev : Event) (r : Result A) : Traced A := (r, [ev]).

Definition result {A : Type} (c : Traced A) : Result A := fst c.
Definition trace {A : Type} (c : Traced A) : list Event := snd c.

(** A collaborator's outcome that involves no recorded call. *)
Definition lift {A : Type} (r : Result A) : Traced A := (r, []).

(* ===================================================================== *)
(** ** subtle/validators                                                  *)
(* ===================================================================== *)

Module Validators.

(** Modelled from the spec: [requireUint8Array] of subtle/validators is
    not part of the sources, and the spec only speaks of byte inputs; it
    is modelled by its call contract: it returns for a [Uint8Array] and
    throws for every other value.  The embedding hands the array's bytes
    back, which is the narrowing the caller relies on afterwards. *)
Definition requireUint8Array (input : JsValue) : Result bytes :=
  match input with
  | JsUint8Array b => Ok b
  | _ => Thrown (InvalidArgumentsException
                   "input must be a non null Uint8Array"%string)
  end.

End Validators.

(** [Uint8Array.prototype.subarray(begin, end)] for [begin <= end]. *)
Definition subarray (a : bytes) (begin_ end_ : nat) : bytes :=
  firstn (end_ - begin_) (skipn begin_ a).

(* ===================================================================== *)
(** ** WrappedPublicKeyVerify                                             *)
(* ===================================================================== *)

Module WrappedPublicKeyVerify.
Section Wrapped.
Context {cryptoFormat : CryptoFormat}.

(** [this.primitiveSet.getPrimitives(keyId)] *)
Definition getPrimitives (primitiveSet : PrimitiveSet) (keyId : bytes)
  : Traced (list Entry) :=
  call (EvGetPrimitives keyId)
       (Ok (PrimitiveSet.entriesForPrefix primitiveSet keyId)).

(** [this.primitiveSet.getRawPrimitives()] *)
Definition getRawPrimitives (primitiveSet : PrimitiveSet)
  : Traced (list Entry) :=
  call EvGetRawPrimitives (Ok (PrimitiveSet.rawEntries primitiveSet)).

(** [tryVerification_]: the [for] loop over [primitives], by recursion on
    the entries still to visit; [continue] is the recursive call. *)
Fixpoint tryVerification_ (primitives : list Entry) (signature data : bytes)
  : Traced bool :=
  match primitives with
  | [] => ret false
  | p :: rest =>
      if negb (PbKeyStatusType_eqb (getKeyStatus p) ENABLED)
      then tryVerification_ rest signature data
      else
        let primitive := getPrimitive p in
        attempt <- catch
                     (isValid <- call (EvVerify p signature data)
                                      (verify primitive signature data) ;;
                      ret (Some isValid))
                     (fun _ => ret None) ;;
        match attempt with
        | None => tryVerification_ rest signature data
        | Some isValid =>
            if isValid then ret isValid
            else tryVerification_ rest signature data
        end
  end.

(** [verify]: the early [return isValid] of the prefixed phase is the
    [Some] case of [early]. *)
Definition verify (primitiveSet : PrimitiveSet) (signature data : JsValue)
  : Traced bool :=
  signature <- lift (Validators.requireUint8Array signature) ;;
  data <- lift (Validators.requireUint8Array data) ;;
  early <- (if NON_RAW_PREFIX_SIZE <? List.length signature then
              let keyId := subarray signature 0 NON_RAW_PREFIX_SIZE in
              primitives <- getPrimitives primitiveSet keyId ;;
              let rawSignature :=
                subarray signature NON_RAW_PREFIX_SIZE (List.length signature) in
              isValid <- catch
                           (tryVerification_ primitives rawSignature data)
                           (fun _ => ret false) ;;
              if isValid then ret (Some isValid) else ret None
            else ret None) ;;
  match early with
  | Some isValid => ret isValid
  | None =>
      primitives <- getRawPrimitives primitiveSet ;;
      tryVerification_ primitives signature data
  end.

(** [newPublicKeyVerify]: the wrapped primitive closes over the set. *)
Definition newPublicKeyVerify (primitiveSet : option PrimitiveSet)
  : Result (JsValue -> JsValue -> Traced bool) :=
  match primitiveSet with
  | None => raise (SecurityException
                     "Primitive set has to be non-null."%string)
  | Some ps => ret (verify ps)
  end.

End Wrapped.
End WrappedPublicKeyVerify.

(* ===================================================================== *)
(** ** EcdsaPublicKeyFactory                                              *)
(* ===================================================================== *)

(** The interface [KeyManager.KeyFactory]. *)
Record KeyFactory : Type := mkKeyFactory
  { newKey : JsValue -> Result JsValue
  ; newKeyData : JsValue -> Result PbKeyData }.

Module EcdsaPublicKeyFactory.

Definition NOT_SUPPORTED : string :=
  ("This operation is not supported for public keys. " ++
   "Use EcdsaPrivateKeyManager to generate new keys.")%string.

(** The overrides are typed [never]; the result types are those of the
    [KeyFactory] interface they implement (a key message, key data). *)
Definition newKey (keyFormat : JsValue) : Result JsValue :=
  raise (SecurityException NOT_SUPPORTED).

Definition newKeyData (serializedKeyFormat : JsValue) : Result PbKeyData :=
  raise (SecurityException NOT_SUPPORTED).

(** [new EcdsaPublicKeyFactory()] *)
Definition new : KeyFactory := mkKeyFactory newKey newKeyData.

End EcdsaPublicKeyFactory.

(* ===================================================================== *)
(** ** EcdsaPublicKeyManager                                              *)
(* ===================================================================== *)

(** The functions of internal/proto, internal/util, signature/ecdsa_util
    and subtle/ecdsa_verify that [getPrimitive] calls are not part of the
    sources; the manager is embedded over any implementation of them, each
    of which may return or throw. *)
Class EcdsaCollaborators : Type :=
  { JsonWebKey : Type
  ; deserializeBinary : bytes -> Result PbEcdsaPublicKey
  ; validatePublicKey : PbEcdsaPublicKey -> Z -> Result unit
  ; getJsonWebKeyFromProto : PbEcdsaPublicKey -> Result JsonWebKey
  ; hashTypeProtoToString : Z -> Result string
  ; encodingTypeProtoToEnum : Z -> Result Z
  ; fromJsonWebKey : JsonWebKey -> string -> Z -> Result PublicKeyVerify }.

(** The value passed as [primitiveType]: the class object
    [PublicKeyVerify] itself or any other value. *)
Inductive PrimitiveType : Type :=
| PublicKeyVerifyClass
| NotPublicKeyVerify (v : JsValue).

(** [a === b] where one side is the class object [PublicKeyVerify]: only
    the class object is identical to it. *)
Definition sameClass (a b : PrimitiveType) : bool :=
  match a, b with
  | PublicKeyVerifyClass, PublicKeyVerifyClass => true
  | _, _ => false
  end.

Module EcdsaPublicKeyManager.
Section Manager.
Context {collaborators : EcdsaCollaborators}.

Definition KEY_TYPE : string :=
  "type.googleapis.com/google.crypto.tink.EcdsaPublicKey"%string.

Definition SUPPORTED_PRIMITIVE_ : PrimitiveType := PublicKeyVerifyClass.

Definition VERSION : Z := 0.

Definition getKeyType : string := KEY_TYPE.

Definition getPrimitiveType : PrimitiveType := SUPPORTED_PRIMITIVE_.

Definition getVersion : Z := VERSION.

(** [keyType === this.getKeyType()]: strict equality with a string holds
    for a string of the same characters and for nothing else. *)
Definition doesSupport (keyType : JsValue) : bool :=
  match keyType with
  | JsString s => String.eqb s getKeyType
  | _ => false
  end.

Definition CANNOT_PARSE : string :=
  ("Input cannot be parsed as " ++ KEY_TYPE ++ " key-proto.")%string.

Definition getKeyProtoFromKeyData_ (keyData : PbKeyData)
  : Result PbEcdsaPublicKey :=
  if negb (String.eqb (getTypeUrl keyData) KEY_TYPE) then
    raise (SecurityException
             ("Key type " ++ getTypeUrl keyData ++
              " is not supported. This key " ++
              "manager supports " ++ KEY_TYPE ++ ".")%string)
  else
    key <- catch (deserializeBinary (getValue keyData))
                 (fun _ => raise (SecurityException CANNOT_PARSE)) ;;
    if negb (truthy (getParams key)) || negb (truthy (getX key))
       || negb (truthy (getY key))
    then raise (SecurityException CANNOT_PARSE)
    else ret key.

Definition getKeyProto_ (keyMaterial : JsValue) : Result PbEcdsaPublicKey :=
  match keyMaterial with
  | JsPbKeyData keyData => getKeyProtoFromKeyData_ keyData
  | JsPbEcdsaPublicKey key => ret key
  | _ => raise (SecurityException
                  ("Key type is not supported. This key manager supports "
                   ++ KEY_TYPE ++ ".")%string)
  end.

(** [getPrimitive]; [params.getHashType()] on an absent [params] is a
    [TypeError]. *)
Definition getPrimitive (primitiveType : PrimitiveType) (key : JsValue)
  : Result PublicKeyVerify :=
  if negb (sameClass primitiveType getPrimitiveType) then
    raise (SecurityException
             ("Requested primitive type which is not " ++
              "supported by this key manager.")%string)
  else
    keyProto <- getKeyProto_ key ;;
    validatePublicKey keyProto getVersion ;;
    jwk <- getJsonWebKeyFromProto keyProto ;;
    params <- match getParams keyProto with
              | Some params => ret params
              | None => raise (TypeError
     "Cannot read properties of undefined (reading 'getHashType')"%string)
              end ;;
    hash <- hashTypeProtoToString (getHashType params) ;;
    encoding <- encodingTypeProtoToEnum (getEncoding params) ;;
    fromJsonWebKey jwk hash encoding.

Definition keyFactory : KeyFactory := EcdsaPublicKeyFactory.new.

Definition getKeyFactory : KeyFactory := keyFactory.

End Manager.
End EcdsaPublicKeyManager.


(* ===================================================================== *)
(** ** PublicKeyVerifyWrapper                                             *)
(* ===================================================================== *)

Module PublicKeyVerifyWrapper.

(** [wrap]: an absent set is the falsy [primitiveSet]. *)
Definition wrap {cryptoFormat : CryptoFormat}
  (primitiveSet : option PrimitiveSet)
  : Result (JsValue -> JsValue -> Traced bool) :=
  WrappedPublicKeyVerify.newPublicKeyVerify primitiveSet.

Definition getPrimitiveType : PrimitiveType := PublicKeyVerifyClass.

End PublicKeyVerifyWrapper.

(* ===================================================================== *)
(** ** Vocabulary of the specification                                   *)
(* ===================================================================== *)

Definition isEnabled (e : Entry) : bool :=
  PbKeyStatusType_eqb (getKeyStatus e) ENABLED.

(** An ENABLED entry whose primitive reports the signature valid. *)
Definition validates (e : Entry) (signature data : bytes) : Prop :=
  getKeyStatus e = ENABLED /\
  verify (getPrimitive e) signature data = Ok true.

(** The entry's primitive reports invalid or throws. *)
Definition rejects (e : Entry) (signature data : bytes) : Prop :=
  verify (getPrimitive e) signature data = Ok false \/
  exists x, verify (getPrimitive e) signature data = Thrown x.

(** The call of an entry's primitive on [(signature, data)]. *)
Definition invocation (signature data : bytes) (e : Entry) : Event :=
  EvVerify e signature data.

(** Following the spec's words (4.3, steps 1a and 2): the ENABLED entries
    of a group are tried in insertion order on [(signature, data)]; the
    first one whose primitive reports success ends the group with success
    and no later entry is tried; when none does, all of them have been
    tried and the group fails.  [TriedInOrder es signature data b t]: the
    group [es] ends with [b] after exactly the calls [t]. *)
Inductive TriedInOrder (es : list Entry) (signature data : bytes)
  : bool -> list Event -> Prop :=
| tried_success (before after : list Entry) (e : Entry) (t : list Event) :
    filter isEnabled es = before ++ e :: after ->
    Forall (fun e' => rejects e' signature data) before ->
    verify (getPrimitive e) signature data = Ok true ->
    t = map (invocation signature data) (before ++ [e]) ->
    TriedInOrder es signature data true t
| tried_failure (t : list Event) :
    Forall (fun e' => rejects e' signature data) (filter isEnabled es) ->
    t = map (invocation signature data) (filter isEnabled es) ->
    TriedInOrder es signature data false t.

(** Following the spec's words (4.3, steps 1 to 3): an input longer than
    the prefix size is split; the entries under its candidate prefix are
    tried on the remainder and a success there is the answer; otherwise,
    and for an input that is not longer than the prefix size, the raw
    entries are tried on the full input and decide. *)
Inductive Dispatch {cryptoFormat : CryptoFormat} (ps : PrimitiveSet)
  (signature data : bytes) : bool -> list Event -> Prop :=
| dispatch_tagged (t1 : list Event) :
    NON_RAW_PREFIX_SIZE < List.length signature ->
    TriedInOrder
      (PrimitiveSet.entriesForPrefix ps (firstn NON_RAW_PREFIX_SIZE signature))
      (skipn NON_RAW_PREFIX_SIZE signature) data true t1 ->
    Dispatch ps signature data true
      (EvGetPrimitives (firstn NON_RAW_PREFIX_SIZE signature) :: t1)
| dispatch_fallback (b : bool) (t1 t2 : list Event) :
    NON_RAW_PREFIX_SIZE < List.length signature ->
    TriedInOrder
      (PrimitiveSet.entriesForPrefix ps (firstn NON_RAW_PREFIX_SIZE signature))
      (skipn NON_RAW_PREFIX_SIZE signature) data false t1 ->
    TriedInOrder (PrimitiveSet.rawEntries ps) signature data b t2 ->
    Dispatch ps signature data b
      (EvGetPrimitives (firstn NON_RAW_PREFIX_SIZE signature)
         :: t1 ++ EvGetRawPrimitives :: t2)
| dispatch_raw (b : bool) (t2 : list Event) :
    List.length signature <= NON_RAW_PREFIX_SIZE ->
    TriedInOrder (PrimitiveSet.rawEntries ps) signature data b t2 ->
    Dispatch ps signature data b (EvGetRawPrimitives :: t2).

(** The entry [e] with another primitive in its place. *)
Definition withPrimitive (p : PublicKeyVerify) (e : Entry) : Entry :=
  mkEntry p (getIdentifier e) (getOutputPrefixType e) (getKeyStatus e)
          (isPrimary e).

(** The set [ps] with the primitive of its [i]-th entry (in insertion
    order) replaced by [p]. *)
Fixpoint replaceAt (i : nat) (p : PublicKeyVerify) (es : list Entry)
  : list Entry :=
  match es, i with
  | [], _ => []
  | e :: rest, O => withPrimitive p e :: rest
  | e :: rest, S j => e :: replaceAt j p rest
  end.

Definition replacePrimitive (i : nat) (p : PublicKeyVerify) (ps : PrimitiveSet)
  : PrimitiveSet :=
  PrimitiveSet.mkPrimitiveSet (replaceAt i p (PrimitiveSet.entries ps)).

(** Two entries that are the same, or are both not ENABLED and differ at
    most in their primitive. *)
Definition sameUnlessDisabled (a b : Entry) : Prop :=
  a = b \/
  (isEnabled a = false /\ isEnabled b = false /\
   getIdentifier a = getIdentifier b /\
   getOutputPrefixType a = getOutputPrefixType b).

(** Following the spec's words (4.1, [primitiveFrom]): the verifier built
    from a key proto once it has been obtained, as [getPrimitive] does after
    [getKeyProto_] has returned. *)
Definition primitiveFrom {collaborators : EcdsaCollaborators}
  (keyProto : PbEcdsaPublicKey) : Result PublicKeyVerify :=
  validatePublicKey keyProto EcdsaPublicKeyManager.getVersion ;;
  jwk <- getJsonWebKeyFromProto keyProto ;;
  params <- match getParams keyProto with
            | Some params => ret params
            | None => raise (TypeError
     "Cannot read properties of undefined (reading 'getHashType')"%string)
            end ;;
  hash <- hashTypeProtoToString (getHashType params) ;;
  encoding <- encodingTypeProtoToEnum (getEncoding params) ;;
  fromJsonWebKey jwk hash encoding.

Definition isKeyData (v : JsValue) : bool :=
  match v with JsPbKeyData _ => true | _ => false end.

Definition isEcdsaPublicKey (v : JsValue) : bool :=
  match v with JsPbEcdsaPublicKey _ => true | _ => false end.

(* ===================================================================== *)
(** ** Concrete inputs                                                    *)
(* ===================================================================== *)

(** Tink's tagged outputs carry a five-byte prefix. *)
Definition tinkCryptoFormat : CryptoFormat := {| NON_RAW_PREFIX_SIZE := 5 |}.

Definition accepting : PublicKeyVerify :=
  mkPublicKeyVerify (fun _ _ => Ok true).

Definition rejecting : PublicKeyVerify :=
  mkPublicKeyVerify (fun _ _ => Ok false).

Definition throwing : PublicKeyVerify :=
  mkPublicKeyVerify (fun _ _ => Thrown (OtherException "backend failure"%string)).

(** A verifier that accepts one signature, for any data. *)
Definition acceptingOnly (good : bytes) : PublicKeyVerify :=
  mkPublicKeyVerify
    (fun s _ => Ok (if bytes_eq_dec s good then true else false)).

Definition id1 : bytes := [x01; x01; x02; x03; x04].
Definition id2 : bytes := [x01; x0a; x0b; x0c; x0d].
Definition sig1 : bytes := [xaa; xbb; xcc].
Definition msg1 : bytes := [x68; x69].

Definition taggedEntry : Entry :=
  mkEntry (acceptingOnly sig1) id1 TINK ENABLED true.
Definition rawEntry : Entry :=
  mkEntry (acceptingOnly sig1) [] RAW ENABLED false.
Definition disabledEntry : Entry := mkEntry accepting id1 TINK DISABLED false.
Definition destroyedRawEntry : Entry := mkEntry accepting [] RAW DESTROYED false.
Definition throwingEntry : Entry := mkEntry throwing id1 TINK ENABLED false.
Definition rejectingRawEntry : Entry := mkEntry rejecting [] RAW ENABLED false.

(** The spec's scenario: one ENABLED tagged entry and one ENABLED raw
    entry (here behind a DISABLED entry with the same tag). *)
Definition scenarioSet : PrimitiveSet :=
  PrimitiveSet.mkPrimitiveSet [disabledEntry; taggedEntry; rawEntry].

(** A set whose candidates all throw or reject. *)
Definition hopelessSet : PrimitiveSet :=
  PrimitiveSet.mkPrimitiveSet
    [throwingEntry; disabledEntry; rejectingRawEntry; destroyedRawEntry].

(** A raw entry that accepts exactly the tagged signature [id1 ++ sig1]
    as a whole. *)
Definition rawWholeEntry : Entry :=
  mkEntry (acceptingOnly (id1 ++ sig1)) [] RAW ENABLED false.

(** A set whose tagged candidates fail and whose raw entry accepts the
    full input. *)
Definition fallbackSet : PrimitiveSet :=
  PrimitiveSet.mkPrimitiveSet [throwingEntry; disabledEntry; rawWholeEntry].

Definition someParams : PbEcdsaParams := mkPbEcdsaParams 3 2 1.

(** A toy implementation of the manager's collaborators: the payload
    [[x00]] does not decode, [[x01]] decodes to a key without fields, any
    other payload to a key holding it as both coordinates. *)
Definition toyCollaborators : EcdsaCollaborators :=
  {| JsonWebKey := PbEcdsaPublicKey
   ; deserializeBinary := fun b =>
       match b with
       | [x00] => Thrown (OtherException "Assertion failed"%string)
       | [x01] => Ok (mkPbEcdsaPublicKey 0 None None None)
       | _ => Ok (mkPbEcdsaPublicKey 0 (Some someParams) (Some b) (Some b))
       end
   ; validatePublicKey := fun _ _ => Ok tt
   ; getJsonWebKeyFromProto := fun k => Ok k
   ; hashTypeProtoToString := fun _ => Ok "SHA-256"%string
   ; encodingTypeProtoToEnum := fun z => Ok z
   ; fromJsonWebKey := fun _ _ _ => Ok accepting |}.

Definition wrongTypeKeyData : PbKeyData :=
  mkPbKeyData "type.googleapis.com/google.crypto.tink.EcdsaPrivateKey"%string
              [x02; x03] ENABLED.

Definition undecodableKeyData : PbKeyData :=
  mkPbKeyData EcdsaPublicKeyManager.KEY_TYPE [x00] ENABLED.

Definition fieldlessKeyData : PbKeyData :=
  mkPbKeyData EcdsaPublicKeyManager.KEY_TYPE [x01] ENABLED.

Definition goodKeyData : PbKeyData :=
  mkPbKeyData EcdsaPublicKeyManager.KEY_TYPE [x02; x03] ENABLED.

(** The calls of candidate primitives among the events. *)
Definition isCall (ev : Event) : bool :=
  match ev with EvVerify _ _ _ => true | _ => false end.

(** The set [ps] without the entries that [keep] refuses. *)
Definition restrict (keep : Entry -> bool) (ps : PrimitiveSet) : PrimitiveSet :=
  PrimitiveSet.mkPrimitiveSet (filter keep (PrimitiveSet.entries ps)).

(** An entry that is raw or carries the tag [keyId]. *)
Definition rawOrTagged (keyId : bytes) (e : Entry) : bool :=
  isRaw (getOutputPrefixType e) || PrimitiveSet.hasPrefix keyId e.

(** Collaborators as [toyCollaborators], with a validation that refuses
    every key for a version other than 0 and every key without params. *)
Definition strictCollaborators : EcdsaCollaborators :=
  {| JsonWebKey := PbEcdsaPublicKey
   ; deserializeBinary := @deserializeBinary toyCollaborators
   ; validatePublicKey := fun k v =>
       if (getKeyVersion k =? v)%Z && truthy (getParams k)
       then Ok tt
       else Thrown (SecurityException "invalid key"%string)
   ; getJsonWebKeyFromProto := fun k => Ok k
   ; hashTypeProtoToString := fun _ => Ok "SHA-256"%string
   ; encodingTypeProtoToEnum := fun z => Ok z
   ; fromJsonWebKey := fun _ _ _ => Ok accepting |}.

Definition paramlessKey : PbEcdsaPublicKey :=
  mkPbEcdsaPublicKey 0 None (Some [x02]) (Some [x03]).

Definition completeKey : PbEcdsaPublicKey :=
  mkPbEcdsaPublicKey 0 (Some someParams) (Some [x02; x03]) (Some [x02; x03]).

(** A tagged entry under [id2], to be added to a set. *)
Definition otherTaggedEntry : Entry :=
  mkEntry accepting id2 TINK ENABLED false.

(* ===================================================================== *)
(** ** Properties of the traced computation                              *)
(* ===================================================================== *)

Section TryVerification.
Context {cryptoFormat : CryptoFormat}.

Local Abbreviation tryVerification_ :=
  WrappedPublicKeyVerify.tryVerification_.

Lemma isEnabled_true (e : Entry) :
  isEnabled e = true <-> getKeyStatus e = ENABLED.
Proof.
  unfold isEnabled; destruct (getKeyStatus e); simpl; split;
    intros; congruence.
Qed.

Lemma rejects_iff (e : Entry) (signature data : bytes) :
  rejects e signature data <->
  verify (getPrimitive e) signature data <> Ok true.
Proof.
  unfold rejects.
  destruct (verify (getPrimitive e) signature data) as [[|]|x]; split;
    intros H; try congruence; try tauto.
  - destruct H as [H|[y H]]; discriminate.
  - right; eauto.
Qed.

Lemma tryVerification_skip (p : Entry) rest signature data :
  isEnabled p = false ->
  tryVerification_ (p :: rest) signature data =
  tryVerification_ rest signature data.
Proof. unfold isEnabled; intros H; simpl; rewrite H; reflexivity. Qed.

Lemma tryVerification_hit (p : Entry) rest signature data :
  isEnabled p = true ->
  verify (getPrimitive p) signature data = Ok true ->
  tryVerification_ (p :: rest) signature data =
  (Ok true, [EvVerify p signature data]).
Proof.
  unfold isEnabled; intros H Hv; simpl; rewrite H; simpl.
  unfold call; rewrite Hv; reflexivity.
Qed.

Lemma tryVerification_miss (p : Entry) rest signature data :
  isEnabled p = true ->
  verify (getPrimitive p) signature data <> Ok true ->
  tryVerification_ (p :: rest) signature data =
  (result (tryVerification_ rest signature data),
   EvVerify p signature data :: trace (tryVerification_ rest signature data)).
Proof.
  unfold isEnabled, result, trace; intros H Hv; simpl; rewrite H; simpl.
  unfold call.
  destruct (verify (getPrimitive p) signature data) as [[|]|x];
    try congruence; simpl;
    destruct (tryVerification_ rest signature data); reflexivity.
Qed.

(** The loop returns (it never throws) and does what the specification
    says of a group of entries. *)
Lemma tryVerification_spec (es : list Entry) (signature data : bytes) :
  exists b t,
    tryVerification_ es signature data = (Ok b, t) /\
    TriedInOrder es signature data b t.
Proof.
  induction es as [|p rest IH].
  - exists false, []; split; [reflexivity|].
    apply tried_failure; simpl; [constructor | reflexivity].
  - destruct IH as (b & t & Hrun & Hspec).
    destruct (isEnabled p) eqn:Hen.
    + destruct (verify (getPrimitive p) signature data) as [[|]|x] eqn:Hv.
      * exists true, [EvVerify p signature data]; split.
        { apply tryVerification_hit; assumption. }
        apply (tried_success _ _ _ [] (filter isEnabled rest) p);
          simpl; try rewrite Hen; auto.
      * exists b, (EvVerify p signature data :: t); split.
        { rewrite tryVerification_miss by (assumption || congruence).
          rewrite Hrun; reflexivity. }
        inversion Hspec as [before after e t' Hf Hrej Hok Ht | t' Hrej Ht];
          subst.
        { apply (tried_success _ _ _ (p :: before) after e);
            simpl; try rewrite Hen; try rewrite Hf; auto.
          constructor; [left; assumption | assumption]. }
        { apply tried_failure; simpl; rewrite Hen; simpl; auto.
          constructor; [left; assumption | assumption]. }
      * exists b, (EvVerify p signature data :: t); split.
        { rewrite tryVerification_miss by (assumption || congruence).
          rewrite Hrun; reflexivity. }
        inversion Hspec as [before after e t' Hf Hrej Hok Ht | t' Hrej Ht];
          subst.
        { apply (tried_success _ _ _ (p :: before) after e);
            simpl; try rewrite Hen; try rewrite Hf; auto.
          constructor; [right; eauto | assumption]. }
        { apply tried_failure; simpl; rewrite Hen; simpl; auto.
          constructor; [right; eauto | assumption]. }
    + exists b, t; split.
      { rewrite tryVerification_skip by assumption; exact Hrun. }
      inversion Hspec as [before after e t' Hf Hrej Hok Ht | t' Hrej Ht];
        subst.
      { apply (tried_success _ _ _ before after e);
          simpl; try rewrite Hen; auto. }
      { apply tried_failure; simpl; rewrite Hen; auto. }
Qed.

(** A group succeeds exactly when one of its entries validates. *)
Lemma TriedInOrder_true_iff (es : list Entry) (signature data : bytes)
      (b : bool) (t : list Event) :
  TriedInOrder es signature data b t ->
  (b = true <-> exists e, In e es /\ validates e signature data).
Proof.
  intros H; inversion H as [before after e t' Hf Hrej Hok Ht | t' Hrej Ht];
    subst; split; intros Hb; try reflexivity; try discriminate.
  - exists e.
    assert (Hin : In e (filter isEnabled es))
      by (rewrite Hf; apply in_or_app; right; left; reflexivity).
    apply filter_In in Hin; destruct Hin as [Hin Hen].
    split; [assumption|]. split; [apply isEnabled_true|]; assumption.
  - destruct Hb as (e & Hin & Hst & Hok). exfalso.
    rewrite Forall_forall in Hrej.
    assert (Hr : rejects e signature data).
    { apply Hrej, filter_In; split; [assumption|].
      apply isEnabled_true; assumption. }
    apply rejects_iff in Hr; contradiction.
Qed.

(** Every call of a group is the call of one of its ENABLED entries on the
    arguments the group was given. *)
Lemma TriedInOrder_calls (es : list Entry) (signature data : bytes)
      (b : bool) (t : list Event) :
  TriedInOrder es signature data b t ->
  forall ev, In ev t ->
    exists e, ev = EvVerify e signature data /\ In e es /\
              getKeyStatus e = ENABLED.
Proof.
  intros H ev Hev.
  assert (Hsub : exists l, t = map (invocation signature data) l /\
                           incl l (filter isEnabled es)).
  { inversion H as [before after e t' Hf Hrej Hok Ht | t' Hrej Ht]; subst.
    - exists (before ++ [e]); split; [reflexivity|].
      rewrite Hf; intros x Hx; apply in_app_or in Hx; apply in_or_app.
      destruct Hx as [Hx|[Hx|[]]]; [left; assumption|right; left; assumption].
    - exists (filter isEnabled es); split; [reflexivity|apply incl_refl]. }
  destruct Hsub as (l & -> & Hincl).
  apply in_map_iff in Hev; destruct Hev as (e & <- & Hin).
  apply Hincl, filter_In in Hin; destruct Hin as [Hin Hen].
  exists e; repeat split; [assumption | apply isEnabled_true; assumption].
Qed.

(** What a group does is determined by the group and its arguments. *)
Lemma TriedInOrder_run (es : list Entry) (signature data : bytes)
      (b : bool) (t : list Event) :
  TriedInOrder es signature data b t ->
  tryVerification_ es signature data = (Ok b, t).
Proof.
  revert b t; induction es as [|p rest IH]; intros b t H.
  - inversion H as [before after e t' Hf Hrej Hok Ht | t' Hrej Ht]; subst.
    + destruct before; discriminate.
    + reflexivity.
  - destruct (isEnabled p) eqn:Hen.
    + inversion H as [before after e t' Hf Hrej Hok Ht | t' Hrej Ht]; subst;
        cbn [filter] in *; rewrite Hen in *.
      * destruct before as [|q before]; simpl in Hf; inversion Hf; subst.
        { apply tryVerification_hit; assumption. }
        inversion Hrej as [|? ? Hq Hrest]; subst.
        rewrite tryVerification_miss
          by (assumption || (apply rejects_iff; assumption)).
        rewrite (IH true (map (invocation signature data) (before ++ [e])));
          [reflexivity|].
        apply (tried_success _ _ _ before after e); auto.
      * inversion Hrej as [|? ? Hq Hrest]; subst.
        rewrite tryVerification_miss
          by (assumption || (apply rejects_iff; assumption)).
        rewrite (IH false (map (invocation signature data)
                               (filter isEnabled rest)));
          [reflexivity|].
        apply tried_failure; auto.
    + rewrite tryVerification_skip by assumption. apply IH.
      inversion H as [before after e t' Hf Hrej Hok Ht | t' Hrej Ht]; subst;
        cbn [filter] in *; rewrite Hen in *.
      * apply (tried_success _ _ _ before after e); auto.
      * apply tried_failure; auto.
Qed.

Lemma subarray_prefix (a : bytes) (n : nat) : subarray a 0 n = firstn n a.
Proof. unfold subarray; simpl; rewrite Nat.sub_0_r; reflexivity. Qed.

Lemma subarray_remainder (a : bytes) (n : nat) :
  subarray a n (List.length a) = skipn n a.
Proof.
  unfold subarray. apply firstn_all2. rewrite length_skipn. lia.
Qed.

End TryVerification.

Section Verify.
Context {cryptoFormat : CryptoFormat}.

Local Abbreviation tryVerification_ :=
  WrappedPublicKeyVerify.tryVerification_.

(** [verify] on two byte arrays, phase by phase. *)
Lemma verify_run (ps : PrimitiveSet) (signature data : bytes) :
  WrappedPublicKeyVerify.verify ps (JsUint8Array signature) (JsUint8Array data)
  = let keyId := firstn NON_RAW_PREFIX_SIZE signature in
    let c1 := tryVerification_ (PrimitiveSet.entriesForPrefix ps keyId)
                (skipn NON_RAW_PREFIX_SIZE signature) data in
    let c2 := tryVerification_ (PrimitiveSet.rawEntries ps) signature data in
    if NON_RAW_PREFIX_SIZE <? List.length signature then
      match result c1 with
      | Ok true => (Ok true, EvGetPrimitives keyId :: trace c1)
      | _ => (result c2,
              EvGetPrimitives keyId :: trace c1 ++ EvGetRawPrimitives :: trace c2)
      end
    else (result c2, EvGetRawPrimitives :: trace c2).
Proof.
  unfold WrappedPublicKeyVerify.verify, result, trace; simpl.
  rewrite subarray_prefix, subarray_remainder.
  destruct (NON_RAW_PREFIX_SIZE <? List.length signature); simpl.
  - destruct (tryVerification_ _ (skipn _ _) data) as [[[|]|x] t1]; simpl;
      try rewrite app_nil_r;
      destruct (tryVerification_ (PrimitiveSet.rawEntries ps) signature data);
      simpl; try rewrite app_nil_r; reflexivity.
  - destruct (tryVerification_ (PrimitiveSet.rawEntries ps) signature data);
      reflexivity.
Qed.

(** On byte arrays [verify] returns, and does what the specification's
    dispatch says. *)
Lemma verify_Dispatch (ps : PrimitiveSet) (signature data : bytes) :
  exists b t,
    WrappedPublicKeyVerify.verify ps (JsUint8Array signature)
                                  (JsUint8Array data) = (Ok b, t) /\
    Dispatch ps signature data b t.
Proof.
  rewrite verify_run; cbv zeta.
  destruct (tryVerification_spec
              (PrimitiveSet.entriesForPrefix ps
                 (firstn NON_RAW_PREFIX_SIZE signature))
              (skipn NON_RAW_PREFIX_SIZE signature) data)
    as (b1 & t1 & Hrun1 & Hspec1).
  destruct (tryVerification_spec (PrimitiveSet.rawEntries ps) signature data)
    as (b2 & t2 & Hrun2 & Hspec2).
  rewrite Hrun1, Hrun2; unfold result, trace; simpl.
  destruct (Nat.ltb_spec NON_RAW_PREFIX_SIZE (List.length signature)).
  - destruct b1.
    + eexists _, _; split; [reflexivity|].
      apply dispatch_tagged; assumption.
    + eexists _, _; split; [reflexivity|].
      apply dispatch_fallback; assumption.
  - eexists _, _; split; [reflexivity|].
    apply dispatch_raw; assumption.
Qed.

(** A dispatch succeeds exactly when an entry of the tried groups
    validates its input. *)
Lemma Dispatch_true_iff (ps : PrimitiveSet) (signature data : bytes)
      (b : bool) (t : list Event) :
  Dispatch ps signature data b t ->
  (b = true <->
   (NON_RAW_PREFIX_SIZE < List.length signature /\
    exists e,
      In e (PrimitiveSet.entriesForPrefix ps
              (firstn NON_RAW_PREFIX_SIZE signature)) /\
      validates e (skipn NON_RAW_PREFIX_SIZE signature) data) \/
   (exists e, In e (PrimitiveSet.rawEntries ps) /\
              validates e signature data)).
Proof.
  intros H; inversion H as [t1 Hlen H1 | b' t1 t2 Hlen H1 H2 | b' t2 Hlen H2];
    subst.
  - split; [intros _|reflexivity].
    left; split; [assumption|].
    apply (TriedInOrder_true_iff _ _ _ _ _ H1); reflexivity.
  - split.
    + intros Hb; right. apply (TriedInOrder_true_iff _ _ _ _ _ H2); assumption.
    + intros [[_ Hex]|Hex].
      * apply (TriedInOrder_true_iff _ _ _ _ _ H1) in Hex; discriminate.
      * apply (TriedInOrder_true_iff _ _ _ _ _ H2); assumption.
  - split.
    + intros Hb; right. apply (TriedInOrder_true_iff _ _ _ _ _ H2); assumption.
    + intros [[Hgt _]|Hex]; [lia|].
      apply (TriedInOrder_true_iff _ _ _ _ _ H2); assumption.
Qed.

(** Every primitive call of a dispatch is made on an ENABLED entry: one
    under the candidate prefix, called on the remainder, or a raw one,
    called on the full signature. *)
Lemma Dispatch_calls (ps : PrimitiveSet) (signature data : bytes)
      (b : bool) (t : list Event) :
  Dispatch ps signature data b t ->
  forall e s d, In (EvVerify e s d) t ->
    getKeyStatus e = ENABLED /\ d = data /\
    ((NON_RAW_PREFIX_SIZE < List.length signature /\
      In e (PrimitiveSet.entriesForPrefix ps
              (firstn NON_RAW_PREFIX_SIZE signature)) /\
      s = skipn NON_RAW_PREFIX_SIZE signature) \/
     (In e (PrimitiveSet.rawEntries ps) /\ s = signature)).
Proof.
  intros H e s d Hin.
  inversion H as [t1 Hlen H1 | b' t1 t2 Hlen H1 H2 | b' t2 Hlen H2]; subst.
  - destruct Hin as [Hin|Hin]; [discriminate|].
    destruct (TriedInOrder_calls _ _ _ _ _ H1 _ Hin) as (e' & Heq & He & Hst).
    inversion Heq; subst. auto 6.
  - destruct Hin as [Hin|Hin]; [discriminate|].
    apply in_app_or in Hin; destruct Hin as [Hin|[Hin|Hin]];
      [|discriminate|].
    + destruct (TriedInOrder_calls _ _ _ _ _ H1 _ Hin) as (e' & Heq & He & Hst).
      inversion Heq; subst. auto 6.
    + destruct (TriedInOrder_calls _ _ _ _ _ H2 _ Hin) as (e' & Heq & He & Hst).
      inversion Heq; subst. auto 6.
  - destruct Hin as [Hin|Hin]; [discriminate|].
    destruct (TriedInOrder_calls _ _ _ _ _ H2 _ Hin) as (e' & Heq & He & Hst).
    inversion Heq; subst. auto 6.
Qed.

(** An argument that is not a byte array makes [verify] throw at once. *)
Lemma verify_not_Uint8Array (ps : PrimitiveSet) (signature data : JsValue) :
  isUint8Array signature = false \/ isUint8Array data = false ->
  exists msg,
    WrappedPublicKeyVerify.verify ps signature data
    = (Thrown (InvalidArgumentsException msg), []).
Proof.
  intros [H|H].
  - destruct signature; try discriminate; eexists; reflexivity.
  - destruct signature; try (eexists; reflexivity);
      destruct data; try discriminate; eexists; reflexivity.
Qed.

(** When no entry of the tried groups validates, [verify] returns false. *)
Lemma verify_false (ps : PrimitiveSet) (signature data : bytes) :
  (NON_RAW_PREFIX_SIZE < List.length signature ->
   forall e,
     In e (PrimitiveSet.entriesForPrefix ps
             (firstn NON_RAW_PREFIX_SIZE signature)) ->
     getKeyStatus e = ENABLED ->
     rejects e (skipn NON_RAW_PREFIX_SIZE signature) data) ->
  (forall e,
     In e (PrimitiveSet.rawEntries ps) ->
     getKeyStatus e = ENABLED ->
     rejects e signature data) ->
  result (WrappedPublicKeyVerify.verify ps (JsUint8Array signature)
                                        (JsUint8Array data)) = Ok false.
Proof.
  intros Hp Hr.
  destruct (verify_Dispatch ps signature data) as (b & t & Hrun & Hd).
  rewrite Hrun; unfold result; simpl. destruct b; [exfalso|reflexivity].
  destruct (proj1 (Dispatch_true_iff _ _ _ _ _ Hd) eq_refl)
    as [(Hlen & e & Hin & Hst & Hok) | (e & Hin & Hst & Hok)].
  - apply (proj1 (rejects_iff _ _ _) (Hp Hlen e Hin Hst)); assumption.
  - apply (proj1 (rejects_iff _ _ _) (Hr e Hin Hst)); assumption.
Qed.

(** C1 (spec P1 soundness, P4 order sensitivity).  For every primitive set
    and all byte arrays [signature] and [data], the wrapped [verify]
    returns a boolean [b] after the calls [t], where [Dispatch] holds of
    [b] and [t]: the entries under the candidate prefix are tried first on
    the remainder, then the raw entries on the full signature, each group
    in insertion order and only up to the first entry whose primitive
    reports success; and [b] is [true] if and only if an ENABLED entry of
    one of these groups validates its input. *)
Theorem wrapped_verify_soundness (ps : PrimitiveSet) (signature data : bytes) :
  exists b t,
    WrappedPublicKeyVerify.verify ps (JsUint8Array signature)
                                  (JsUint8Array data) = (Ok b, t) /\
    Dispatch ps signature data b t /\
    (b = true <->
     (NON_RAW_PREFIX_SIZE < List.length signature /\
      exists e,
        In e (PrimitiveSet.entriesForPrefix ps
                (firstn NON_RAW_PREFIX_SIZE signature)) /\
        validates e (skipn NON_RAW_PREFIX_SIZE signature) data) \/
     (exists e, In e (PrimitiveSet.rawEntries ps) /\
                validates e signature data)).
Proof.
  destruct (verify_Dispatch ps signature data) as (b & t & Hrun & Hd).
  exists b, t; repeat split; try assumption;
    apply (Dispatch_true_iff _ _ _ _ _ Hd).
Qed.

(** C2 (spec P5 error opacity).  If the primitive of every candidate entry
    (the ENABLED entries under the candidate prefix, on the remainder, and
    the ENABLED raw entries, on the full signature) throws or reports
    invalid, the wrapped [verify] returns [false], no exception reaches the
    caller, and the result is the one of any set in which no entry matches
    at all. *)
Theorem wrapped_verify_error_opacity
        (ps : PrimitiveSet) (signature data : bytes) :
  (NON_RAW_PREFIX_SIZE < List.length signature ->
   forall e,
     In e (PrimitiveSet.entriesForPrefix ps
             (firstn NON_RAW_PREFIX_SIZE signature)) ->
     getKeyStatus e = ENABLED ->
     rejects e (skipn NON_RAW_PREFIX_SIZE signature) data) ->
  (forall e,
     In e (PrimitiveSet.rawEntries ps) ->
     getKeyStatus e = ENABLED ->
     rejects e signature data) ->
  result (WrappedPublicKeyVerify.verify ps (JsUint8Array signature)
                                        (JsUint8Array data)) = Ok false /\
  forall ps0 : PrimitiveSet,
    PrimitiveSet.entriesForPrefix ps0 (firstn NON_RAW_PREFIX_SIZE signature)
    = [] ->
    PrimitiveSet.rawEntries ps0 = [] ->
    result (WrappedPublicKeyVerify.verify ps0 (JsUint8Array signature)
                                          (JsUint8Array data))
    = result (WrappedPublicKeyVerify.verify ps (JsUint8Array signature)
                                            (JsUint8Array data)).
Proof.
  intros Hp Hr.
  assert (Hfalse := verify_false ps signature data Hp Hr).
  split; [assumption|].
  intros ps0 Hnop Hnor. rewrite Hfalse.
  apply verify_false.
  - intros _ e He _; rewrite Hnop in He; destruct He.
  - intros e He _; rewrite Hnor in He; destruct He.
Qed.

(** C4 (spec P3 fallback correctness).  For a signature longer than the
    prefix size whose prefixed phase fails (no ENABLED entry under the
    candidate prefix reports success on the remainder), [verify] goes on
    to the raw entries: after the failed group it asks for the raw entries
    and tries them, and the result is theirs; every call of that phase is
    made on the full original signature. *)
Theorem wrapped_verify_fallback_full_signature
        (ps : PrimitiveSet) (signature data : bytes) :
  NON_RAW_PREFIX_SIZE < List.length signature ->
  (forall e,
     In e (PrimitiveSet.entriesForPrefix ps
             (firstn NON_RAW_PREFIX_SIZE signature)) ->
     ~ validates e (skipn NON_RAW_PREFIX_SIZE signature) data) ->
  exists b t1 t2,
    TriedInOrder
      (PrimitiveSet.entriesForPrefix ps (firstn NON_RAW_PREFIX_SIZE signature))
      (skipn NON_RAW_PREFIX_SIZE signature) data false t1 /\
    TriedInOrder (PrimitiveSet.rawEntries ps) signature data b t2 /\
    WrappedPublicKeyVerify.verify ps (JsUint8Array signature)
                                  (JsUint8Array data)
    = (Ok b, EvGetPrimitives (firstn NON_RAW_PREFIX_SIZE signature)
               :: t1 ++ EvGetRawPrimitives :: t2) /\
    tryVerification_ (PrimitiveSet.rawEntries ps) signature data = (Ok b, t2) /\
    forall e s d, In (EvVerify e s d) t2 ->
      In e (PrimitiveSet.rawEntries ps) /\ s = signature /\ d = data.
Proof.
  intros Hlen Hnone.
  destruct (tryVerification_spec
              (PrimitiveSet.entriesForPrefix ps
                 (firstn NON_RAW_PREFIX_SIZE signature))
              (skipn NON_RAW_PREFIX_SIZE signature) data)
    as (b1 & t1 & Hrun1 & Hspec1).
  destruct (tryVerification_spec (PrimitiveSet.rawEntries ps) signature data)
    as (b & t2 & Hrun2 & Hspec2).
  assert (Hb1 : b1 = false).
  { destruct b1; [exfalso|reflexivity].
    destruct (proj1 (TriedInOrder_true_iff _ _ _ _ _ Hspec1) eq_refl)
      as (e & Hin & Hval).
    exact (Hnone e Hin Hval). }
  subst b1. exists b, t1, t2. repeat split; try assumption.
  - rewrite verify_run; cbv zeta. rewrite Hrun1, Hrun2.
    apply Nat.ltb_lt in Hlen; rewrite Hlen. reflexivity.
  - destruct (TriedInOrder_calls _ _ _ _ _ Hspec2 _ H)
      as (e' & Heq & He & _); inversion Heq; subst; assumption.
  - destruct (TriedInOrder_calls _ _ _ _ _ Hspec2 _ H)
      as (e' & Heq & He & _); inversion Heq; subst; reflexivity.
  - destruct (TriedInOrder_calls _ _ _ _ _ Hspec2 _ H)
      as (e' & Heq & He & _); inversion Heq; subst; reflexivity.
Qed.

(** C5.  For a signature whose length does not exceed the prefix size,
    [verify] skips the prefixed phase: its first and only lookup is the one
    of the raw entries, no lookup by prefix is made, every primitive call is
    made on a raw entry with the full signature, and the result is the one
    of the raw group. *)
Theorem wrapped_verify_short_signature_is_raw
        (ps : PrimitiveSet) (signature data : bytes) :
  List.length signature <= NON_RAW_PREFIX_SIZE ->
  exists b t2,
    TriedInOrder (PrimitiveSet.rawEntries ps) signature data b t2 /\
    WrappedPublicKeyVerify.verify ps (JsUint8Array signature)
                                  (JsUint8Array data)
    = (Ok b, EvGetRawPrimitives :: t2) /\
    (forall keyId, ~ In (EvGetPrimitives keyId) (EvGetRawPrimitives :: t2)) /\
    (forall e s d, In (EvVerify e s d) (EvGetRawPrimitives :: t2) ->
       In e (PrimitiveSet.rawEntries ps) /\
       getOutputPrefixType e = RAW /\ s = signature /\ d = data).
Proof.
  intros Hlen.
  destruct (tryVerification_spec (PrimitiveSet.rawEntries ps) signature data)
    as (b & t2 & Hrun2 & Hspec2).
  exists b, t2. split; [assumption|]. split; [|split].
  - rewrite verify_run; cbv zeta. rewrite Hrun2.
    apply Nat.ltb_ge in Hlen; rewrite Hlen. reflexivity.
  - intros keyId [Hin|Hin]; [discriminate|].
    destruct (TriedInOrder_calls _ _ _ _ _ Hspec2 _ Hin) as (e' & Heq & _).
    discriminate.
  - intros e s d [Hin|Hin]; [discriminate|].
    destruct (TriedInOrder_calls _ _ _ _ _ Hspec2 _ Hin)
      as (e' & Heq & He & _); inversion Heq; subst.
    repeat split; try assumption.
    unfold PrimitiveSet.rawEntries in He. apply filter_In in He.
    destruct He as [_ Hraw].
    destruct (getOutputPrefixType e'); simpl in Hraw; congruence.
Qed.

Lemma replaceAt_sameUnlessDisabled (i : nat) (p : PublicKeyVerify)
      (es : list Entry) (e : Entry) :
  nth_error es i = Some e ->
  getKeyStatus e <> ENABLED ->
  Forall2 sameUnlessDisabled es (replaceAt i p es).
Proof.
  assert (Hrefl : forall l, Forall2 sameUnlessDisabled l l)
    by (induction l; constructor; [left; reflexivity | assumption]).
  revert i; induction es as [|a rest IH]; intros [|i] Hnth Hst;
    simpl in *; try discriminate.
  - inversion Hnth; subst. constructor; [|apply Hrefl].
    right. unfold isEnabled, withPrimitive; simpl.
    destruct (getKeyStatus e); simpl; try congruence; auto.
  - constructor; [left; reflexivity | eapply IH; eassumption].
Qed.

Lemma filter_sameUnlessDisabled (f : Entry -> bool) (l l' : list Entry) :
  (forall a b, sameUnlessDisabled a b -> f a = f b) ->
  Forall2 sameUnlessDisabled l l' ->
  Forall2 sameUnlessDisabled (filter f l) (filter f l').
Proof.
  intros Hf H; induction H as [|a b l l' Hab Hl IH]; simpl; [constructor|].
  rewrite <- (Hf a b Hab). destruct (f a); [constructor|]; assumption.
Qed.

Lemma tryVerification_sameUnlessDisabled (l l' : list Entry)
      (signature data : bytes) :
  Forall2 sameUnlessDisabled l l' ->
  tryVerification_ l signature data = tryVerification_ l' signature data.
Proof.
  intros H; induction H as [|a b l l' Hab Hl IH]; [reflexivity|].
  destruct Hab as [<-|(Ha & Hb & _)].
  - destruct (isEnabled a) eqn:Hen.
    + destruct (verify (getPrimitive a) signature data) as [[|]|x] eqn:Hv.
      * rewrite !tryVerification_hit by assumption; reflexivity.
      * rewrite !tryVerification_miss by (assumption || congruence).
        rewrite IH; reflexivity.
      * rewrite !tryVerification_miss by (assumption || congruence).
        rewrite IH; reflexivity.
    + rewrite !tryVerification_skip by assumption; exact IH.
  - rewrite !tryVerification_skip by assumption; exact IH.
Qed.

(** C3 (spec P2 status exclusion).  Let the [i]-th entry of the set have a
    status other than ENABLED.  Then for every signature and data, putting
    any other primitive [p] in that entry's place (also one that reports
    every signature valid) changes neither the value [verify] returns nor
    the calls it makes; and every primitive call [verify] makes is the call
    of an ENABLED entry, so the primitive of a DISABLED or DESTROYED entry
    is never invoked. *)
Theorem wrapped_verify_status_exclusion
        (ps : PrimitiveSet) (i : nat) (e : Entry) (p : PublicKeyVerify)
        (signature data : JsValue) :
  nth_error (PrimitiveSet.entries ps) i = Some e ->
  getKeyStatus e <> ENABLED ->
  WrappedPublicKeyVerify.verify (replacePrimitive i p ps) signature data
  = WrappedPublicKeyVerify.verify ps signature data /\
  (forall e' s d,
      In (EvVerify e' s d)
         (trace (WrappedPublicKeyVerify.verify ps signature data)) ->
      getKeyStatus e' = ENABLED) /\
  (forall s d,
      ~ In (EvVerify e s d)
           (trace (WrappedPublicKeyVerify.verify ps signature data))).
Proof.
  intros Hnth Hst.
  assert (Hcalls : forall e' s d,
             In (EvVerify e' s d)
                (trace (WrappedPublicKeyVerify.verify ps signature data)) ->
             getKeyStatus e' = ENABLED).
  { intros e' s d Hin.
    destruct (isUint8Array signature) eqn:Hs;
      [destruct (isUint8Array data) eqn:Hd|].
    - destruct signature; try discriminate; destruct data; try discriminate.
      destruct (verify_Dispatch ps b b0) as (r & t & Hrun & Hdisp).
      rewrite Hrun in Hin. unfold trace in Hin; simpl in Hin.
      apply (Dispatch_calls _ _ _ _ _ Hdisp _ _ _ Hin).
    - destruct (verify_not_Uint8Array ps signature data (or_intror Hd))
        as (msg & Hrun).
      rewrite Hrun in Hin; destruct Hin.
    - destruct (verify_not_Uint8Array ps signature data (or_introl Hs))
        as (msg & Hrun).
      rewrite Hrun in Hin; destruct Hin. }
  split; [|split; [exact Hcalls|]].
  - assert (Hrel := replaceAt_sameUnlessDisabled i p _ e Hnth Hst).
    destruct signature; try reflexivity; destruct data; try reflexivity.
    rewrite !verify_run; cbv zeta.
    unfold PrimitiveSet.entriesForPrefix, PrimitiveSet.rawEntries,
      replacePrimitive; simpl.
    rewrite <- (tryVerification_sameUnlessDisabled _ _ b b0
                  (filter_sameUnlessDisabled
                     (fun e0 => isRaw (getOutputPrefixType e0)) _ _
                     ltac:(intros x y [<-|(_ & _ & _ & ->)]; reflexivity)
                     Hrel)).
    rewrite <- (tryVerification_sameUnlessDisabled _ _
                  (skipn NON_RAW_PREFIX_SIZE b) b0
                  (filter_sameUnlessDisabled
                     (PrimitiveSet.hasPrefix (firstn NON_RAW_PREFIX_SIZE b))
                     _ _
                     ltac:(intros x y [<-|(_ & _ & Hid & Hty)];
                           [reflexivity|];
                           unfold PrimitiveSet.hasPrefix;
                           rewrite Hid, Hty; reflexivity)
                     Hrel)).
    reflexivity.
  - intros s d Hin. apply Hst. exact (Hcalls e s d Hin).
Qed.

(** C9.  If the signature or the data argument is not a [Uint8Array],
    [verify] throws, and it does so before any lookup in the primitive set
    and before any candidate primitive is called (the trace is empty);
    whereas on byte arrays it always returns a boolean, whatever the
    candidate primitives do. *)
Theorem wrapped_verify_requires_Uint8Array
        (ps : PrimitiveSet) (signature data : JsValue) :
  isUint8Array signature = false \/ isUint8Array data = false ->
  (exists x, WrappedPublicKeyVerify.verify ps signature data
             = (Thrown x, [])) /\
  (forall s d : bytes, exists b,
      result (WrappedPublicKeyVerify.verify ps (JsUint8Array s)
                                            (JsUint8Array d)) = Ok b).
Proof.
  intros H. split.
  - destruct (verify_not_Uint8Array ps signature data H) as (msg & Hrun).
    eexists; exact Hrun.
  - intros s d. destruct (verify_Dispatch ps s d) as (b & t & Hrun & _).
    exists b. rewrite Hrun. reflexivity.
Qed.

End Verify.

(* ===================================================================== *)
(** ** Properties of the key manager                                     *)
(* ===================================================================== *)

Section Manager.
Context {collaborators : EcdsaCollaborators}.

(** [getPrimitive] is the primitive-type guard, [getKeyProto_], and then
    the construction of the verifier from the key proto. *)
Lemma getPrimitive_run (primitiveType : PrimitiveType) (key : JsValue) :
  EcdsaPublicKeyManager.getPrimitive primitiveType key =
  match primitiveType with
  | PublicKeyVerifyClass =>
      keyProto <- EcdsaPublicKeyManager.getKeyProto_ key ;;
      primitiveFrom keyProto
  | NotPublicKeyVerify _ =>
      Thrown (SecurityException
                ("Requested primitive type which is not " ++
                 "supported by this key manager.")%string)
  end.
Proof. destruct primitiveType; reflexivity. Qed.

(** When [getKeyProto_] throws, so does [getPrimitive], and what reaches
    the caller is a [SecurityException]. *)
Lemma getPrimitive_fails (primitiveType : PrimitiveType) (key : JsValue)
      (msg : string) :
  EcdsaPublicKeyManager.getKeyProto_ key = Thrown (SecurityException msg) ->
  exists msg',
    EcdsaPublicKeyManager.getPrimitive primitiveType key
    = Thrown (SecurityException msg').
Proof.
  intros H. rewrite getPrimitive_run. destruct primitiveType.
  - rewrite H; eexists; reflexivity.
  - eexists; reflexivity.
Qed.

(** C6 (spec P6 key-type guard).  For key data whose typeUrl differs from
    the manager's key type, whatever the payload, [getKeyProto_] throws the
    "Key type ... is not supported" [SecurityException] and [getPrimitive]
    fails with a [SecurityException] for every requested primitive type;
    and [doesSupport] is [true] exactly on the key-type string
    'type.googleapis.com/google.crypto.tink.EcdsaPublicKey'. *)
Theorem key_type_guard (keyData : PbKeyData) (primitiveType : PrimitiveType) :
  getTypeUrl keyData <> EcdsaPublicKeyManager.KEY_TYPE ->
  EcdsaPublicKeyManager.getKeyProto_ (JsPbKeyData keyData)
  = Thrown (SecurityException
              ("Key type " ++ getTypeUrl keyData ++
               " is not supported. This key manager supports " ++
               "type.googleapis.com/google.crypto.tink.EcdsaPublicKey"
               ++ ".")%string) /\
  (exists msg,
      EcdsaPublicKeyManager.getPrimitive primitiveType (JsPbKeyData keyData)
      = Thrown (SecurityException msg)) /\
  (forall keyType : JsValue,
      EcdsaPublicKeyManager.doesSupport keyType = true <->
      keyType = JsString
                  "type.googleapis.com/google.crypto.tink.EcdsaPublicKey"%string).
Proof.
  intros Hurl.
  assert (Hproto :
            EcdsaPublicKeyManager.getKeyProto_ (JsPbKeyData keyData)
            = Thrown (SecurityException
                        ("Key type " ++ getTypeUrl keyData ++
                         " is not supported. This key manager supports " ++
                         "type.googleapis.com/google.crypto.tink.EcdsaPublicKey"
                         ++ ".")%string)).
  { unfold EcdsaPublicKeyManager.getKeyProto_,
      EcdsaPublicKeyManager.getKeyProtoFromKeyData_.
    apply String.eqb_neq in Hurl; rewrite Hurl; reflexivity. }
  split; [exact Hproto|]. split.
  - eapply getPrimitive_fails; exact Hproto.
  - intros keyType; unfold EcdsaPublicKeyManager.doesSupport; split.
    + destruct keyType; try discriminate.
      intros H; apply String.eqb_eq in H; subst; reflexivity.
    + intros ->. apply String.eqb_eq; reflexivity.
Qed.

(** C7.  For key data with the manager's typeUrl whose value does not
    decode into the ECDSA public-key schema, or decodes into a key that
    lacks params, x or y, [getKeyProto_] throws the "Input cannot be
    parsed" [SecurityException] and [getPrimitive] fails with a
    [SecurityException]: no primitive is produced. *)
Theorem malformed_key_rejected
        (keyData : PbKeyData) (primitiveType : PrimitiveType) :
  getTypeUrl keyData = EcdsaPublicKeyManager.KEY_TYPE ->
  ((exists x, deserializeBinary (getValue keyData) = Thrown x) \/
   (exists key,
       deserializeBinary (getValue keyData) = Ok key /\
       (getParams key = None \/ getX key = None \/ getY key = None))) ->
  EcdsaPublicKeyManager.getKeyProto_ (JsPbKeyData keyData)
  = Thrown (SecurityException
              ("Input cannot be parsed as " ++
               "type.googleapis.com/google.crypto.tink.EcdsaPublicKey" ++
               " key-proto.")%string) /\
  (exists msg,
      EcdsaPublicKeyManager.getPrimitive primitiveType (JsPbKeyData keyData)
      = Thrown (SecurityException msg)) /\
  (forall primitive,
      EcdsaPublicKeyManager.getPrimitive primitiveType (JsPbKeyData keyData)
      <> Ok primitive).
Proof.
  intros Hurl Hbad.
  assert (Hproto :
            EcdsaPublicKeyManager.getKeyProto_ (JsPbKeyData keyData)
            = Thrown (SecurityException EcdsaPublicKeyManager.CANNOT_PARSE)).
  { unfold EcdsaPublicKeyManager.getKeyProto_,
      EcdsaPublicKeyManager.getKeyProtoFromKeyData_.
    apply String.eqb_eq in Hurl; rewrite Hurl; simpl.
    destruct Hbad as [(x & ->) | (key & -> & Hmiss)]; [reflexivity|].
    destruct Hmiss as [-> | [-> | ->]]; simpl;
      repeat rewrite orb_true_r; reflexivity. }
  split; [exact Hproto|].
  destruct (getPrimitive_fails primitiveType _ _ Hproto) as (msg & Hthrown).
  split; [exists msg; exact Hthrown|].
  intros primitive; rewrite Hthrown; discriminate.
Qed.

(** C8.  For every input (also [null], [undefined] or an empty array),
    [newKey] and [newKeyData] of the key factory of the public-key manager
    throw a [SecurityException]; they never return key material. *)
Theorem public_key_factory_refuses (input : JsValue) :
  newKey EcdsaPublicKeyManager.getKeyFactory input
  = Thrown (SecurityException
              ("This operation is not supported for public keys. " ++
               "Use EcdsaPrivateKeyManager to generate new keys.")%string) /\
  newKeyData EcdsaPublicKeyManager.getKeyFactory input
  = Thrown (SecurityException
              ("This operation is not supported for public keys. " ++
               "Use EcdsaPrivateKeyManager to generate new keys.")%string) /\
  (forall material,
      newKey EcdsaPublicKeyManager.getKeyFactory input <> Ok material) /\
  (forall material,
      newKeyData EcdsaPublicKeyManager.getKeyFactory input <> Ok material).
Proof. repeat split; intros; discriminate. Qed.

(** C10.  [getPrimitive] takes an ECDSA public-key message as it is:
    [getKeyProto_] returns it unchanged, whatever fields it holds, and the
    verifier is built from it; the typeUrl guard and the decoding are those
    of [getKeyProtoFromKeyData_], which runs for serialized key data only;
    and an input that is neither key data nor an ECDSA public-key message
    makes [getKeyProto_] and [getPrimitive] throw a [SecurityException]. *)
Theorem getPrimitive_input_kinds (other : JsValue)
        (primitiveType : PrimitiveType) :
  isKeyData other = false ->
  isEcdsaPublicKey other = false ->
  (forall key : PbEcdsaPublicKey,
      EcdsaPublicKeyManager.getKeyProto_ (JsPbEcdsaPublicKey key) = Ok key /\
      EcdsaPublicKeyManager.getPrimitive PublicKeyVerifyClass
                                         (JsPbEcdsaPublicKey key)
      = primitiveFrom key) /\
  (forall keyData : PbKeyData,
      EcdsaPublicKeyManager.getKeyProto_ (JsPbKeyData keyData)
      = EcdsaPublicKeyManager.getKeyProtoFromKeyData_ keyData) /\
  EcdsaPublicKeyManager.getKeyProto_ other
  = Thrown (SecurityException
              ("Key type is not supported. This key manager supports " ++
               "type.googleapis.com/google.crypto.tink.EcdsaPublicKey"
               ++ ".")%string) /\
  (exists msg,
      EcdsaPublicKeyManager.getPrimitive primitiveType other
      = Thrown (SecurityException msg)).
Proof.
  intros Hkd Hpk.
  assert (Hproto :
            EcdsaPublicKeyManager.getKeyProto_ other
            = Thrown (SecurityException
                        ("Key type is not supported. This key manager supports "
                         ++ "type.googleapis.com/google.crypto.tink.EcdsaPublicKey"
                         ++ ".")%string))
    by (destruct other; try discriminate; reflexivity).
  split; [|split; [|split]].
  - intros key; split; [reflexivity|].
    rewrite getPrimitive_run; reflexivity.
  - reflexivity.
  - exact Hproto.
  - eapply getPrimitive_fails; exact Hproto.
Qed.

End Manager.

(* ===================================================================== *)
(** ** The properties at concrete inputs                                 *)
(* ===================================================================== *)

(** The spec's scenario, first case: a tagged and signed input succeeds in
    the prefixed phase; the DISABLED entry with the same tag is passed
    over and the raw entries are not asked for. *)
Example scenario_tagged :
  WrappedPublicKeyVerify.verify (cryptoFormat := tinkCryptoFormat)
    scenarioSet (JsUint8Array (id1 ++ sig1)) (JsUint8Array msg1)
  = (Ok true, [EvGetPrimitives id1; EvVerify taggedEntry sig1 msg1]).
Proof. reflexivity. Qed.

(** Second case: the bare signature succeeds through the raw entry. *)
Example scenario_raw :
  WrappedPublicKeyVerify.verify (cryptoFormat := tinkCryptoFormat)
    scenarioSet (JsUint8Array sig1) (JsUint8Array msg1)
  = (Ok true, [EvGetRawPrimitives; EvVerify rawEntry sig1 msg1]).
Proof. reflexivity. Qed.

(** Third case: under a tag of no entry the input falls to the raw entry,
    which is given the whole input. *)
Example scenario_unknown_tag :
  WrappedPublicKeyVerify.verify (cryptoFormat := tinkCryptoFormat)
    scenarioSet (JsUint8Array (id2 ++ sig1)) (JsUint8Array msg1)
  = (Ok false,
     [EvGetPrimitives id2; EvGetRawPrimitives;
      EvVerify rawEntry (id2 ++ sig1) msg1]).
Proof. reflexivity. Qed.

(** An input of exactly the prefix size is raw. *)
Example scenario_exact_prefix_size :
  WrappedPublicKeyVerify.verify (cryptoFormat := tinkCryptoFormat)
    scenarioSet (JsUint8Array id1) (JsUint8Array msg1)
  = (Ok false, [EvGetRawPrimitives; EvVerify rawEntry id1 msg1]).
Proof. reflexivity. Qed.

Example toy_getPrimitive_good :
  EcdsaPublicKeyManager.getPrimitive (collaborators := toyCollaborators)
    PublicKeyVerifyClass (JsPbKeyData goodKeyData) = Ok accepting.
Proof. reflexivity. Qed.

(** A set whose candidates throw, reject or are not ENABLED: the tagged
    input is refused, exactly as by the empty set. *)
Lemma wrapped_verify_error_opacity_witness :
  result (WrappedPublicKeyVerify.verify (cryptoFormat := tinkCryptoFormat)
            hopelessSet (JsUint8Array (id1 ++ sig1)) (JsUint8Array msg1))
  = Ok false /\
  result (WrappedPublicKeyVerify.verify (cryptoFormat := tinkCryptoFormat)
            PrimitiveSet.empty (JsUint8Array (id1 ++ sig1))
            (JsUint8Array msg1))
  = result (WrappedPublicKeyVerify.verify (cryptoFormat := tinkCryptoFormat)
              hopelessSet (JsUint8Array (id1 ++ sig1)) (JsUint8Array msg1)).
Proof.
  destruct (@wrapped_verify_error_opacity tinkCryptoFormat hopelessSet
              (id1 ++ sig1) msg1) as [Hfalse Hsame].
  - intros _ e He Hst. vm_compute in He.
    destruct He as [<-|[<-|[]]]; [right; eexists; reflexivity|discriminate].
  - intros e He Hst. vm_compute in He.
    destruct He as [<-|[<-|[]]]; [left; reflexivity|discriminate].
  - split; [exact Hfalse|].
    apply Hsame; reflexivity.
Defined.

(** Giving the DISABLED entry of the scenario a throwing primitive changes
    nothing. *)
Lemma wrapped_verify_status_exclusion_witness :
  nth_error (PrimitiveSet.entries scenarioSet) 0 = Some disabledEntry /\
  getKeyStatus disabledEntry <> ENABLED /\
  WrappedPublicKeyVerify.verify (cryptoFormat := tinkCryptoFormat)
    (replacePrimitive 0 throwing scenarioSet)
    (JsUint8Array (id1 ++ sig1)) (JsUint8Array msg1)
  = WrappedPublicKeyVerify.verify (cryptoFormat := tinkCryptoFormat)
      scenarioSet (JsUint8Array (id1 ++ sig1)) (JsUint8Array msg1).
Proof.
  split; [reflexivity|]. split; [simpl; discriminate|].
  apply (@wrapped_verify_status_exclusion tinkCryptoFormat scenarioSet 0
           disabledEntry throwing
           (JsUint8Array (id1 ++ sig1)) (JsUint8Array msg1)).
  - reflexivity.
  - simpl; discriminate.
Defined.

(** The tagged candidates of [fallbackSet] fail; the raw phase runs on the
    whole input. *)
Lemma wrapped_verify_fallback_full_signature_witness :
  @NON_RAW_PREFIX_SIZE tinkCryptoFormat < List.length (id1 ++ sig1) /\
  exists b t1 t2,
    WrappedPublicKeyVerify.verify (cryptoFormat := tinkCryptoFormat)
      fallbackSet (JsUint8Array (id1 ++ sig1)) (JsUint8Array msg1)
    = (Ok b, EvGetPrimitives id1 :: t1 ++ EvGetRawPrimitives :: t2) /\
    forall e s d, In (EvVerify e s d) t2 -> s = id1 ++ sig1.
Proof.
  split; [simpl; lia|].
  destruct (@wrapped_verify_fallback_full_signature tinkCryptoFormat
              fallbackSet (id1 ++ sig1) msg1)
    as (b & t1 & t2 & _ & _ & Hrun & _ & Hcalls).
  - simpl; lia.
  - intros e He [Hst Hok]. vm_compute in He.
    destruct He as [<-|[<-|[]]]; discriminate.
  - exists b, t1, t2. split; [exact Hrun|].
    intros e s d Hin. exact (proj1 (proj2 (Hcalls e s d Hin))).
Defined.

(** A three-byte signature is looked up among the raw entries only. *)
Lemma wrapped_verify_short_signature_is_raw_witness :
  List.length sig1 <= @NON_RAW_PREFIX_SIZE tinkCryptoFormat /\
  exists b t2,
    WrappedPublicKeyVerify.verify (cryptoFormat := tinkCryptoFormat)
      scenarioSet (JsUint8Array sig1) (JsUint8Array msg1)
    = (Ok b, EvGetRawPrimitives :: t2) /\
    forall keyId, ~ In (EvGetPrimitives keyId) (EvGetRawPrimitives :: t2).
Proof.
  split; [simpl; lia|].
  destruct (@wrapped_verify_short_signature_is_raw tinkCryptoFormat
              scenarioSet sig1 msg1)
    as (b & t2 & _ & Hrun & Hnolookup & _).
  - simpl; lia.
  - exists b, t2. split; [exact Hrun | exact Hnolookup].
Defined.

(** [null] as signature. *)
Lemma wrapped_verify_requires_Uint8Array_witness :
  isUint8Array JsNull = false /\
  exists x,
    WrappedPublicKeyVerify.verify (cryptoFormat := tinkCryptoFormat)
      scenarioSet JsNull (JsUint8Array msg1) = (Thrown x, []).
Proof.
  split; [reflexivity|].
  apply (@wrapped_verify_requires_Uint8Array tinkCryptoFormat scenarioSet
           JsNull (JsUint8Array msg1)).
  left; reflexivity.
Defined.

(** Key data of the private-key type. *)
Lemma key_type_guard_witness :
  getTypeUrl wrongTypeKeyData <> EcdsaPublicKeyManager.KEY_TYPE /\
  exists msg,
    EcdsaPublicKeyManager.getPrimitive (collaborators := toyCollaborators)
      PublicKeyVerifyClass (JsPbKeyData wrongTypeKeyData)
    = Thrown (SecurityException msg).
Proof.
  assert (H : getTypeUrl wrongTypeKeyData <> EcdsaPublicKeyManager.KEY_TYPE)
    by (vm_compute; discriminate).
  split; [exact H|].
  apply (@key_type_guard toyCollaborators wrongTypeKeyData
           PublicKeyVerifyClass H).
Defined.

(** A payload that does not decode. *)
Lemma malformed_key_rejected_witness :
  getTypeUrl undecodableKeyData = EcdsaPublicKeyManager.KEY_TYPE /\
  (exists x,
      deserializeBinary (EcdsaCollaborators := toyCollaborators)
        (getValue undecodableKeyData) = Thrown x) /\
  exists msg,
    EcdsaPublicKeyManager.getPrimitive (collaborators := toyCollaborators)
      PublicKeyVerifyClass (JsPbKeyData undecodableKeyData)
    = Thrown (SecurityException msg).
Proof.
  assert (H : exists x,
             deserializeBinary (EcdsaCollaborators := toyCollaborators)
               (getValue undecodableKeyData) = Thrown x)
    by (eexists; reflexivity).
  split; [reflexivity|]. split; [exact H|].
  apply (@malformed_key_rejected toyCollaborators undecodableKeyData
           PublicKeyVerifyClass eq_refl (or_introl H)).
Defined.

(** A string as key. *)
Lemma getPrimitive_input_kinds_witness :
  isKeyData (JsString "key"%string) = false /\
  isEcdsaPublicKey (JsString "key"%string) = false /\
  exists msg,
    EcdsaPublicKeyManager.getPrimitive (collaborators := toyCollaborators)
      PublicKeyVerifyClass (JsString "key"%string)
    = Thrown (SecurityException msg).
Proof.
  split; [reflexivity|]. split; [reflexivity|].
  apply (@getPrimitive_input_kinds toyCollaborators (JsString "key"%string)
           PublicKeyVerifyClass eq_refl eq_refl).
Defined.

(* ===================================================================== *)
(** ** Further properties of the wrapped verify                          *)
(* ===================================================================== *)

Section Dispatching.
Context {cryptoFormat : CryptoFormat}.

Local Abbreviation tryVerification_ :=
  WrappedPublicKeyVerify.tryVerification_.

Lemma filter_swap {A : Type} (f g : A -> bool) (l : list A) :
  filter f (filter g l) = filter g (filter f l).
Proof.
  induction l as [|a l IH]; [reflexivity|]. simpl.
  destruct (f a) eqn:Hf, (g a) eqn:Hg; simpl;
    rewrite ?Hf, ?Hg, IH; reflexivity.
Qed.

Lemma filter_absorb {A : Type} (f g : A -> bool) (l : list A) :
  (forall a, In a l -> g a = true -> f a = true) ->
  filter g (filter f l) = filter g l.
Proof.
  induction l as [|a l IH]; intros H; [reflexivity|]. simpl.
  destruct (g a) eqn:Hg.
  - rewrite (H a (or_introl eq_refl) Hg). simpl. rewrite Hg.
    f_equal. apply IH. intros b Hb; apply H; right; exact Hb.
  - destruct (f a); simpl; rewrite ?Hg;
      apply IH; intros b Hb; apply H; right; exact Hb.
Qed.

Lemma tryVerification_app (l1 l2 : list Entry) (signature data : bytes) :
  tryVerification_ (l1 ++ l2) signature data =
  match result (tryVerification_ l1 signature data) with
  | Ok true => tryVerification_ l1 signature data
  | _ => (result (tryVerification_ l2 signature data),
          trace (tryVerification_ l1 signature data) ++
          trace (tryVerification_ l2 signature data))
  end.
Proof.
  induction l1 as [|p l1 IH].
  - simpl. destruct (tryVerification_ l2 signature data); reflexivity.
  - rewrite <- app_comm_cons. destruct (isEnabled p) eqn:Hen.
    + destruct (verify (getPrimitive p) signature data) as [[|]|x] eqn:Hv.
      * rewrite !tryVerification_hit by assumption. reflexivity.
      * rewrite !tryVerification_miss by (assumption || congruence).
        rewrite IH. unfold result, trace; simpl.
        destruct (tryVerification_ l1 signature data) as [[[|]|y] t1];
          reflexivity.
      * rewrite !tryVerification_miss by (assumption || congruence).
        rewrite IH. unfold result, trace; simpl.
        destruct (tryVerification_ l1 signature data) as [[[|]|y] t1];
          reflexivity.
    + rewrite !tryVerification_skip by assumption. exact IH.
Qed.

Lemma tryVerification_enabled_only (l : list Entry) (signature data : bytes) :
  tryVerification_ (filter isEnabled l) signature data =
  tryVerification_ l signature data.
Proof.
  induction l as [|p l IH]; [reflexivity|]. simpl filter.
  destruct (isEnabled p) eqn:Hen.
  - destruct (verify (getPrimitive p) signature data) as [[|]|x] eqn:Hv.
    + rewrite !tryVerification_hit by assumption. reflexivity.
    + rewrite !tryVerification_miss by (assumption || congruence).
      rewrite IH. reflexivity.
    + rewrite !tryVerification_miss by (assumption || congruence).
      rewrite IH. reflexivity.
  - rewrite tryVerification_skip by assumption. exact IH.
Qed.

(** [verify] sees a set through its two lookups only. *)
Lemma verify_same_lookups (ps ps' : PrimitiveSet) (signature data : bytes) :
  (NON_RAW_PREFIX_SIZE < List.length signature ->
   PrimitiveSet.entriesForPrefix ps' (firstn NON_RAW_PREFIX_SIZE signature)
   = PrimitiveSet.entriesForPrefix ps (firstn NON_RAW_PREFIX_SIZE signature)) ->
  PrimitiveSet.rawEntries ps' = PrimitiveSet.rawEntries ps ->
  WrappedPublicKeyVerify.verify ps' (JsUint8Array signature)
                                (JsUint8Array data)
  = WrappedPublicKeyVerify.verify ps (JsUint8Array signature)
                                  (JsUint8Array data).
Proof.
  intros Hp Hr. rewrite !verify_run; cbv zeta. rewrite Hr.
  destruct (Nat.ltb_spec NON_RAW_PREFIX_SIZE (List.length signature));
    [rewrite (Hp H)|]; reflexivity.
Qed.

(** X6.  The loop over a concatenation of two groups: both groups on
    their own return booleans; when the first group succeeds the second is
    not looked at and the calls are those of the first; otherwise the second
    group decides and its calls follow those of the first. *)
Theorem tryVerification_concat (l1 l2 : list Entry) (signature data : bytes) :
  exists b1 t1 b2 t2,
    tryVerification_ l1 signature data = (Ok b1, t1) /\
    tryVerification_ l2 signature data = (Ok b2, t2) /\
    tryVerification_ (l1 ++ l2) signature data
    = if b1 then (Ok true, t1) else (Ok b2, t1 ++ t2).
Proof.
  destruct (tryVerification_spec l1 signature data) as (b1 & t1 & H1 & _).
  destruct (tryVerification_spec l2 signature data) as (b2 & t2 & H2 & _).
  exists b1, t1, b2, t2. repeat split; try assumption.
  rewrite tryVerification_app, H1, H2. destruct b1; reflexivity.
Qed.

(** X9.  Entries that are not ENABLED are as good as absent: for every
    signature and data, [verify] on the set without them returns the same
    value after the same calls. *)
Theorem verify_without_disabled_entries
        (ps : PrimitiveSet) (signature data : JsValue) :
  WrappedPublicKeyVerify.verify (restrict isEnabled ps) signature data
  = WrappedPublicKeyVerify.verify ps signature data.
Proof.
  destruct signature; try reflexivity; destruct data; try reflexivity.
  rewrite !verify_run; cbv zeta.
  unfold restrict, PrimitiveSet.entriesForPrefix, PrimitiveSet.rawEntries;
    simpl.
  rewrite (filter_swap (PrimitiveSet.hasPrefix _) isEnabled).
  rewrite (filter_swap (fun e => isRaw (getOutputPrefixType e)) isEnabled).
  rewrite !tryVerification_enabled_only. reflexivity.
Qed.

(** X10.  Entries that are neither raw nor, for a signature longer than
    the prefix size, tagged with its first bytes play no part: dropping any
    of them (keeping at least what [keep] must accept) changes neither the
    value [verify] returns nor its calls. *)
Theorem verify_only_candidates_matter
        (keep : Entry -> bool) (ps : PrimitiveSet) (signature data : bytes) :
  (forall e, In e (PrimitiveSet.entries ps) ->
             getOutputPrefixType e = RAW -> keep e = true) ->
  (NON_RAW_PREFIX_SIZE < List.length signature ->
   forall e, In e (PrimitiveSet.entries ps) ->
             getOutputPrefixType e <> RAW ->
             getIdentifier e = firstn NON_RAW_PREFIX_SIZE signature ->
             keep e = true) ->
  WrappedPublicKeyVerify.verify (restrict keep ps) (JsUint8Array signature)
                                (JsUint8Array data)
  = WrappedPublicKeyVerify.verify ps (JsUint8Array signature)
                                  (JsUint8Array data).
Proof.
  intros Hraw Htag. apply verify_same_lookups.
  - intros Hlen.
    unfold restrict, PrimitiveSet.entriesForPrefix; simpl.
    apply filter_absorb. intros e He Hpre.
    unfold PrimitiveSet.hasPrefix in Hpre.
    apply andb_true_iff in Hpre; destruct Hpre as [Hnr Hid].
    apply (Htag Hlen e He).
    + intros Heq; rewrite Heq in Hnr; discriminate.
    + destruct (bytes_eq_dec (getIdentifier e)
                  (firstn NON_RAW_PREFIX_SIZE signature));
        [assumption|discriminate].
  - unfold restrict, PrimitiveSet.rawEntries; simpl.
    apply filter_absorb. intros e He Hr. apply (Hraw e He).
    destruct (getOutputPrefixType e); try discriminate; reflexivity.
Qed.

(** The verdict of [verify] as a property of the entries alone. *)
Lemma verify_true_iff (ps : PrimitiveSet) (signature data : bytes) :
  result (WrappedPublicKeyVerify.verify ps (JsUint8Array signature)
                                        (JsUint8Array data)) = Ok true <->
  (NON_RAW_PREFIX_SIZE < List.length signature /\
   exists e,
     In e (PrimitiveSet.entriesForPrefix ps
             (firstn NON_RAW_PREFIX_SIZE signature)) /\
     validates e (skipn NON_RAW_PREFIX_SIZE signature) data) \/
  (exists e, In e (PrimitiveSet.rawEntries ps) /\ validates e signature data).
Proof.
  destruct (verify_Dispatch ps signature data) as (b & t & Hrun & Hd).
  rewrite Hrun; unfold result; simpl.
  rewrite <- (Dispatch_true_iff _ _ _ _ _ Hd).
  split; [intros H; inversion H; reflexivity | intros ->; reflexivity].
Qed.

Lemma verify_returns_bool (ps : PrimitiveSet) (signature data : bytes) :
  exists b,
    result (WrappedPublicKeyVerify.verify ps (JsUint8Array signature)
                                          (JsUint8Array data)) = Ok b.
Proof.
  destruct (verify_Dispatch ps signature data) as (b & t & Hrun & _).
  exists b; rewrite Hrun; reflexivity.
Qed.

(** X7.  The value [verify] returns does not depend on the order in which
    the entries were inserted: two sets holding the same entries in any
    order give the same verdict (the calls made may differ). *)
Theorem verify_verdict_ignores_insertion_order
        (ps ps' : PrimitiveSet) (signature data : bytes) :
  Permutation (PrimitiveSet.entries ps) (PrimitiveSet.entries ps') ->
  result (WrappedPublicKeyVerify.verify ps (JsUint8Array signature)
                                        (JsUint8Array data))
  = result (WrappedPublicKeyVerify.verify ps' (JsUint8Array signature)
                                          (JsUint8Array data)).
Proof.
  intros Hperm.
  assert (Himp : forall a a' : PrimitiveSet,
             Permutation (PrimitiveSet.entries a) (PrimitiveSet.entries a') ->
             result (WrappedPublicKeyVerify.verify a (JsUint8Array signature)
                       (JsUint8Array data)) = Ok true ->
             result (WrappedPublicKeyVerify.verify a' (JsUint8Array signature)
                       (JsUint8Array data)) = Ok true).
  { intros a a' Hp H. apply verify_true_iff. apply verify_true_iff in H.
    unfold PrimitiveSet.entriesForPrefix, PrimitiveSet.rawEntries in *.
    destruct H as [(Hlen & e & Hin & Hv) | (e & Hin & Hv)].
    - left; split; [assumption|]. exists e; split; [|assumption].
      apply filter_In in Hin; destruct Hin as [Hin Hf].
      apply filter_In; split; [|assumption].
      eapply Permutation_in; eassumption.
    - right. exists e; split; [|assumption].
      apply filter_In in Hin; destruct Hin as [Hin Hf].
      apply filter_In; split; [|assumption].
      eapply Permutation_in; eassumption. }
  destruct (verify_returns_bool ps signature data) as ([|] & Hb);
    destruct (verify_returns_bool ps' signature data) as ([|] & Hb');
    rewrite Hb, Hb'; try reflexivity.
  - rewrite (Himp ps ps' Hperm Hb) in Hb'; discriminate.
  - rewrite (Himp ps' ps (Permutation_sym Hperm) Hb') in Hb; discriminate.
Qed.

(** X8.  Adding an entry to a set never turns an accepted signature into
    a refused one. *)
Theorem verify_accepts_after_insert
        (ps : PrimitiveSet) (e : Entry) (signature data : bytes) :
  result (WrappedPublicKeyVerify.verify ps (JsUint8Array signature)
                                        (JsUint8Array data)) = Ok true ->
  result (WrappedPublicKeyVerify.verify (PrimitiveSet.insert e ps)
                                        (JsUint8Array signature)
                                        (JsUint8Array data)) = Ok true.
Proof.
  intros H. apply verify_true_iff. apply verify_true_iff in H.
  unfold PrimitiveSet.entriesForPrefix, PrimitiveSet.rawEntries,
    PrimitiveSet.insert in *; simpl.
  destruct H as [(Hlen & e0 & Hin & Hv) | (e0 & Hin & Hv)].
  - left; split; [assumption|]. exists e0; split; [|assumption].
    rewrite filter_app. apply in_or_app; left; assumption.
  - right. exists e0; split; [|assumption].
    rewrite filter_app. apply in_or_app; left; assumption.
Qed.

(** X13.  A signature made of the tag of an ENABLED tagged entry of the
    set, whose tag has the prefix size, followed by a non-empty body that
    the entry's primitive accepts, is accepted by [verify]. *)
Theorem verify_accepts_tagged_signature
        (ps : PrimitiveSet) (e : Entry) (body data : bytes) :
  In e (PrimitiveSet.entries ps) ->
  getKeyStatus e = ENABLED ->
  getOutputPrefixType e <> RAW ->
  List.length (getIdentifier e) = NON_RAW_PREFIX_SIZE ->
  body <> [] ->
  verify (getPrimitive e) body data = Ok true ->
  result (WrappedPublicKeyVerify.verify ps
            (JsUint8Array (getIdentifier e ++ body)) (JsUint8Array data))
  = Ok true.
Proof.
  intros Hin Hst Hty Hlen Hbody Hok. apply verify_true_iff. left.
  assert (Hfirst : firstn NON_RAW_PREFIX_SIZE (getIdentifier e ++ body)
                   = getIdentifier e).
  { rewrite <- Hlen, firstn_app, Nat.sub_diag, firstn_all; simpl.
    apply app_nil_r. }
  assert (Hskip : skipn NON_RAW_PREFIX_SIZE (getIdentifier e ++ body) = body).
  { rewrite <- Hlen, skipn_app, Nat.sub_diag, skipn_all; reflexivity. }
  split.
  - rewrite length_app, Hlen. destruct body; [congruence|simpl; lia].
  - exists e. rewrite Hfirst, Hskip. split; [|split; assumption].
    apply filter_In; split; [assumption|].
    unfold PrimitiveSet.hasPrefix.
    destruct (getOutputPrefixType e); try congruence; simpl;
      destruct (bytes_eq_dec (getIdentifier e) (getIdentifier e));
      congruence.
Qed.

(** X14.  A signature that the primitive of an ENABLED raw entry of the
    set accepts is accepted by [verify], whatever its length and whatever
    the entries under its first bytes do. *)
Theorem verify_accepts_raw_signature
        (ps : PrimitiveSet) (e : Entry) (signature data : bytes) :
  In e (PrimitiveSet.entries ps) ->
  getKeyStatus e = ENABLED ->
  getOutputPrefixType e = RAW ->
  verify (getPrimitive e) signature data = Ok true ->
  result (WrappedPublicKeyVerify.verify ps (JsUint8Array signature)
                                        (JsUint8Array data)) = Ok true.
Proof.
  intros Hin Hst Hty Hok. apply verify_true_iff. right.
  exists e; split; [|split; assumption].
  apply filter_In; split; [assumption|]. rewrite Hty; reflexivity.
Qed.

Lemma TriedInOrder_length (es : list Entry) (signature data : bytes)
      (b : bool) (t : list Event) :
  TriedInOrder es signature data b t ->
  filter isCall t = t /\
  List.length t <= List.length (filter isEnabled es).
Proof.
  assert (Hcalls : forall l,
             filter isCall (map (invocation signature data) l)
             = map (invocation signature data) l)
    by (induction l as [|a l IH]; simpl; [|rewrite IH]; reflexivity).
  intros H; inversion H as [before after e t' Hf Hrej Hok Ht | t' Hrej Ht];
    subst; split; try apply Hcalls; rewrite length_map.
  - rewrite Hf, !length_app; simpl; lia.
  - apply Nat.le_refl.
Qed.

Lemma filter_disjoint_length {A : Type} (f g : A -> bool) (l : list A) :
  (forall a, f a = true -> g a = false) ->
  List.length (filter f l) + List.length (filter g l) <= List.length l.
Proof.
  intros Hfg; induction l as [|a l IH]; simpl; [lia|].
  destruct (f a) eqn:Hf.
  - rewrite (Hfg a Hf); simpl; lia.
  - destruct (g a); simpl; lia.
Qed.

(** X11.  For every signature and data, [verify] calls candidate
    primitives at most as many times as the set has ENABLED entries, and
    besides those calls it makes at most two lookups in the set. *)
Theorem verify_call_bound (ps : PrimitiveSet) (signature data : JsValue) :
  List.length
    (filter isCall (trace (WrappedPublicKeyVerify.verify ps signature data)))
  <= List.length (filter isEnabled (PrimitiveSet.entries ps)) /\
  List.length (trace (WrappedPublicKeyVerify.verify ps signature data))
  <= List.length
       (filter isCall
          (trace (WrappedPublicKeyVerify.verify ps signature data))) + 2.
Proof.
  destruct (isUint8Array signature) eqn:Hs;
    [destruct (isUint8Array data) eqn:Hd|].
  - destruct signature; try discriminate; destruct data; try discriminate.
    destruct (verify_Dispatch ps b b0) as (r & t & Hrun & Hdisp).
    rewrite Hrun; unfold trace; simpl.
    assert (Hsum :
              List.length
                (filter isEnabled
                   (PrimitiveSet.entriesForPrefix ps
                      (firstn NON_RAW_PREFIX_SIZE b))) +
              List.length (filter isEnabled (PrimitiveSet.rawEntries ps))
              <= List.length (filter isEnabled (PrimitiveSet.entries ps))).
    { unfold PrimitiveSet.entriesForPrefix, PrimitiveSet.rawEntries.
      rewrite (filter_swap isEnabled (PrimitiveSet.hasPrefix _)).
      rewrite (filter_swap isEnabled
                 (fun e => isRaw (getOutputPrefixType e))).
      apply filter_disjoint_length.
      intros a Ha. unfold PrimitiveSet.hasPrefix in Ha.
      apply andb_true_iff in Ha; destruct Ha as [Ha _].
      destruct (isRaw (getOutputPrefixType a)); [discriminate|reflexivity]. }
    inversion Hdisp as [t1 Hlen H1 | b' t1 t2 Hlen H1 H2 | b' t2 Hlen H2];
      subst; simpl; rewrite ?filter_app; simpl; rewrite ?length_app; simpl.
    + destruct (TriedInOrder_length _ _ _ _ _ H1) as [-> Hl1]. lia.
    + destruct (TriedInOrder_length _ _ _ _ _ H1) as [-> Hl1].
      destruct (TriedInOrder_length _ _ _ _ _ H2) as [-> Hl2]. lia.
    + destruct (TriedInOrder_length _ _ _ _ _ H2) as [-> Hl2]. lia.
  - destruct (verify_not_Uint8Array ps signature data (or_intror Hd))
      as (msg & ->). simpl; lia.
  - destruct (verify_not_Uint8Array ps signature data (or_introl Hs))
      as (msg & ->). simpl; lia.
Qed.

(** X12.  Every call [verify] makes on a candidate primitive passes the
    caller's data unchanged, and is the call of an ENABLED entry of the
    set that is either raw and given the whole signature, or tagged with
    exactly the first prefix-size bytes of the signature and given the
    rest of it, which is not empty: tag and passed bytes make up the
    signature again. *)
Theorem verify_call_arguments
        (ps : PrimitiveSet) (signature data : bytes)
        (e : Entry) (s d : bytes) :
  In (EvVerify e s d)
     (trace (WrappedPublicKeyVerify.verify ps (JsUint8Array signature)
                                           (JsUint8Array data))) ->
  d = data /\
  In e (PrimitiveSet.entries ps) /\
  getKeyStatus e = ENABLED /\
  ((getOutputPrefixType e = RAW /\ s = signature) \/
   (getOutputPrefixType e <> RAW /\
    List.length (getIdentifier e) = NON_RAW_PREFIX_SIZE /\
    getIdentifier e ++ s = signature /\
    s <> [])).
Proof.
  intros Hin.
  destruct (verify_Dispatch ps signature data) as (r & t & Hrun & Hdisp).
  rewrite Hrun in Hin; unfold trace in Hin; simpl in Hin.
  destruct (Dispatch_calls _ _ _ _ _ Hdisp _ _ _ Hin)
    as (Hst & Hd & [(Hlen & He & Hs) | (He & Hs)]).
  - apply filter_In in He; destruct He as [He Hpre].
    unfold PrimitiveSet.hasPrefix in Hpre.
    apply andb_true_iff in Hpre; destruct Hpre as [Hnr Hid].
    destruct (bytes_eq_dec (getIdentifier e)
                (firstn NON_RAW_PREFIX_SIZE signature)) as [Heq|];
      [|discriminate].
    repeat split; try assumption. right. repeat split.
    + intros Hraw; rewrite Hraw in Hnr; discriminate.
    + rewrite Heq, length_firstn. lia.
    + rewrite Heq, Hs. apply firstn_skipn.
    + intros Hnil. rewrite Hnil in Hs.
      assert (Hl : List.length (skipn NON_RAW_PREFIX_SIZE signature) = 0)
        by (rewrite <- Hs; reflexivity).
      rewrite length_skipn in Hl. lia.
  - apply filter_In in He; destruct He as [He Hraw].
    repeat split; try assumption. left. split; [|assumption].
    destruct (getOutputPrefixType e); try discriminate; reflexivity.
Qed.

(** X15.  [wrap] fails exactly for an absent primitive set; the primitive
    it returns for a set answers as [verify] on that set, and on byte
    arrays it returns a boolean and never throws. *)
Theorem wrap_builds_total_verifier (primitiveSet : option PrimitiveSet) :
  (primitiveSet = None <->
   PublicKeyVerifyWrapper.wrap primitiveSet
   = Thrown (SecurityException "Primitive set has to be non-null."%string)) /\
  (forall wrapped,
      PublicKeyVerifyWrapper.wrap primitiveSet = Ok wrapped ->
      exists ps,
        primitiveSet = Some ps /\
        wrapped = WrappedPublicKeyVerify.verify ps /\
        forall signature data : bytes,
        exists b,
          result (wrapped (JsUint8Array signature) (JsUint8Array data))
          = Ok b).
Proof.
  destruct primitiveSet as [ps|]; simpl; split.
  - split; discriminate.
  - intros wrapped H; inversion H; subst. exists ps.
    repeat split. intros signature data. apply verify_returns_bool.
  - split; reflexivity.
  - intros wrapped H; discriminate.
Qed.

End Dispatching.

(* ===================================================================== *)
(** ** Further properties of the key manager                             *)
(* ===================================================================== *)

Section KeyMaterial.
Context {collaborators : EcdsaCollaborators}.

Lemma truthy_true {A : Type} (o : option A) : truthy o = true <-> o <> None.
Proof. destruct o; simpl; split; congruence. Qed.

Lemma getKeyProtoFromKeyData_Ok (keyData : PbKeyData) (key : PbEcdsaPublicKey) :
  EcdsaPublicKeyManager.getKeyProtoFromKeyData_ keyData = Ok key <->
  getTypeUrl keyData = EcdsaPublicKeyManager.KEY_TYPE /\
  deserializeBinary (getValue keyData) = Ok key /\
  getParams key <> None /\ getX key <> None /\ getY key <> None.
Proof.
  unfold EcdsaPublicKeyManager.getKeyProtoFromKeyData_.
  destruct (String.eqb_spec (getTypeUrl keyData) EcdsaPublicKeyManager.KEY_TYPE)
    as [Hurl|Hurl]; simpl.
  - destruct (deserializeBinary (getValue keyData)) as [k|x]; simpl.
    + destruct (getParams k) eqn:Hp, (getX k) eqn:Hx, (getY k) eqn:Hy; simpl;
        split;
        try (intros H; inversion H; subst;
             repeat split; congruence);
        try discriminate;
        try (intros (_ & Hk & Hp' & Hx' & Hy'); inversion Hk; subst;
             congruence).
    + split; [discriminate|]. intros (_ & H & _); discriminate.
  - split; [discriminate|]. intros (H & _); contradiction.
Qed.

(** X1.  [getKeyProto_] returns a key for serialized key data exactly when
    the typeUrl is the manager's key type, the value decodes, and the
    decoded key holds params, x and y; the key returned is the decoded
    one, and the typeUrl is then one that [doesSupport] accepts. *)
Theorem getKeyProto_accepts_exactly
        (keyData : PbKeyData) (key : PbEcdsaPublicKey) :
  (EcdsaPublicKeyManager.getKeyProto_ (JsPbKeyData keyData) = Ok key <->
   getTypeUrl keyData = EcdsaPublicKeyManager.KEY_TYPE /\
   deserializeBinary (getValue keyData) = Ok key /\
   getParams key <> None /\ getX key <> None /\ getY key <> None) /\
  (EcdsaPublicKeyManager.getKeyProto_ (JsPbKeyData keyData) = Ok key ->
   EcdsaPublicKeyManager.doesSupport (JsString (getTypeUrl keyData)) = true).
Proof.
  split; [apply getKeyProtoFromKeyData_Ok|].
  intros H. apply getKeyProtoFromKeyData_Ok in H. destruct H as (Hurl & _).
  simpl. apply String.eqb_eq. exact Hurl.
Qed.

(** X2.  Whatever value it is given, [getKeyProto_] throws nothing but a
    [SecurityException]: an exception thrown by the decoder of the key
    proto does not reach the caller. *)
Theorem getKeyProto_throws_SecurityException_only
        (keyMaterial : JsValue) (x : Exn) :
  EcdsaPublicKeyManager.getKeyProto_ keyMaterial = Thrown x ->
  exists msg, x = SecurityException msg.
Proof.
  destruct keyMaterial; simpl;
    try (intros H; inversion H; eexists; reflexivity).
  unfold EcdsaPublicKeyManager.getKeyProtoFromKeyData_.
  destruct (negb (String.eqb (getTypeUrl kd) EcdsaPublicKeyManager.KEY_TYPE));
    simpl; [intros H; inversion H; eexists; reflexivity|].
  destruct (deserializeBinary (getValue kd)) as [k|y]; simpl;
    [|intros H; inversion H; eexists; reflexivity].
  destruct (negb (truthy (getParams k)) || negb (truthy (getX k))
            || negb (truthy (getY k)));
    simpl; intros H; inversion H; eexists; reflexivity.
Qed.

(** X3.  [getPrimitive] returns a primitive exactly when the requested
    type is [PublicKeyVerify], [getKeyProto_] returns a key proto, that
    proto passes [validatePublicKey] for version 0, it has params, and the
    conversions to a JSON web key, a hash name and an encoding succeed; the
    primitive is the one [fromJsonWebKey] builds from them. *)
Theorem getPrimitive_succeeds_exactly
        (primitiveType : PrimitiveType) (key : JsValue)
        (primitive : PublicKeyVerify) :
  EcdsaPublicKeyManager.getPrimitive primitiveType key = Ok primitive <->
  primitiveType = PublicKeyVerifyClass /\
  exists keyProto params jwk hash encoding,
    EcdsaPublicKeyManager.getKeyProto_ key = Ok keyProto /\
    validatePublicKey keyProto 0 = Ok tt /\
    getJsonWebKeyFromProto keyProto = Ok jwk /\
    getParams keyProto = Some params /\
    hashTypeProtoToString (getHashType params) = Ok hash /\
    encodingTypeProtoToEnum (getEncoding params) = Ok encoding /\
    fromJsonWebKey jwk hash encoding = Ok primitive.
Proof.
  rewrite getPrimitive_run. split.
  - destruct primitiveType; [|discriminate]. intros H.
    split; [reflexivity|].
    destruct (EcdsaPublicKeyManager.getKeyProto_ key) as [keyProto|x];
      [|discriminate].
    simpl in H. unfold primitiveFrom in H; simpl in H.
    unfold EcdsaPublicKeyManager.getVersion, EcdsaPublicKeyManager.VERSION
      in H.
    destruct (validatePublicKey keyProto 0) as [[]|x] eqn:Hval;
      [|discriminate].
    destruct (getJsonWebKeyFromProto keyProto) as [jwk|x] eqn:Hjwk;
      [|discriminate].
    destruct (getParams keyProto) as [params|] eqn:Hpar; [|discriminate].
    simpl in H.
    destruct (hashTypeProtoToString (getHashType params)) as [hash|x] eqn:Hh;
      [|discriminate].
    destruct (encodingTypeProtoToEnum (getEncoding params)) as [enc|x] eqn:He;
      [|discriminate].
    exists keyProto, params, jwk, hash, enc. repeat split; assumption.
  - intros (-> & keyProto & params & jwk & hash & enc
            & -> & Hval & Hjwk & Hpar & Hh & He & Hp).
    simpl. unfold primitiveFrom; simpl.
    unfold EcdsaPublicKeyManager.getVersion, EcdsaPublicKeyManager.VERSION.
    rewrite Hval, Hjwk, Hpar; simpl. rewrite Hh, He. exact Hp.
Qed.

(** X4.  Serialized key data that [getKeyProto_] accepts is treated as the
    key proto it decodes to: [getPrimitive] gives the same outcome for the
    key data and for that proto, for every requested primitive type. *)
Theorem getPrimitive_serialized_as_parsed
        (keyData : PbKeyData) (key : PbEcdsaPublicKey)
        (primitiveType : PrimitiveType) :
  EcdsaPublicKeyManager.getKeyProto_ (JsPbKeyData keyData) = Ok key ->
  deserializeBinary (getValue keyData) = Ok key /\
  EcdsaPublicKeyManager.getPrimitive primitiveType (JsPbKeyData keyData)
  = EcdsaPublicKeyManager.getPrimitive primitiveType (JsPbEcdsaPublicKey key).
Proof.
  intros H. split.
  - apply getKeyProtoFromKeyData_Ok in H. tauto.
  - rewrite !getPrimitive_run. destruct primitiveType; [|reflexivity].
    rewrite H. reflexivity.
Qed.

(** X5.  Once [getKeyProto_] has returned a key proto, an exception of
    [validatePublicKey] reaches the caller of [getPrimitive] as it is, and
    no later step runs on that proto: the outcome does not depend on the
    other collaborators. *)
Theorem getPrimitive_validation_failure_surfaces
        (key : JsValue) (keyProto : PbEcdsaPublicKey) (x : Exn) :
  EcdsaPublicKeyManager.getKeyProto_ key = Ok keyProto ->
  validatePublicKey keyProto EcdsaPublicKeyManager.VERSION = Thrown x ->
  EcdsaPublicKeyManager.getPrimitive PublicKeyVerifyClass key = Thrown x.
Proof.
  intros Hk Hv. rewrite getPrimitive_run, Hk. simpl.
  unfold primitiveFrom; simpl.
  unfold EcdsaPublicKeyManager.getVersion. rewrite Hv. reflexivity.
Qed.

(** X16.  A key proto given as a message is not checked for its fields by
    [getKeyProto_]; when it has no params, [getPrimitive] still produces no
    primitive: if validation and the conversion to a JSON web key let it
    through, reading the hash type of the absent params is a [TypeError]. *)
Theorem getPrimitive_parsed_key_without_params
        (primitiveType : PrimitiveType) (key : PbEcdsaPublicKey) :
  getParams key = None ->
  (forall primitive,
      EcdsaPublicKeyManager.getPrimitive primitiveType
                                         (JsPbEcdsaPublicKey key)
      <> Ok primitive) /\
  (forall jwk,
      validatePublicKey key EcdsaPublicKeyManager.VERSION = Ok tt ->
      getJsonWebKeyFromProto key = Ok jwk ->
      exists msg,
        EcdsaPublicKeyManager.getPrimitive PublicKeyVerifyClass
                                           (JsPbEcdsaPublicKey key)
        = Thrown (TypeError msg)).
Proof.
  intros Hpar. split.
  - intros primitive. rewrite getPrimitive_run.
    destruct primitiveType; [|discriminate]. simpl.
    unfold primitiveFrom; simpl.
    destruct (validatePublicKey key EcdsaPublicKeyManager.getVersion)
      as [[]|x]; [|discriminate].
    destruct (getJsonWebKeyFromProto key) as [jwk|x]; [|discriminate].
    rewrite Hpar. discriminate.
  - intros jwk Hval Hjwk. rewrite getPrimitive_run. simpl.
    unfold primitiveFrom; simpl.
    unfold EcdsaPublicKeyManager.getVersion.
    rewrite Hval, Hjwk, Hpar. eexists; reflexivity.
Qed.

End KeyMaterial.

(* ===================================================================== *)
(** ** The further properties at concrete inputs                         *)
(* ===================================================================== *)

(** The scenario's entries in reverse order give the same verdict. *)
Lemma verify_verdict_ignores_insertion_order_witness :
  Permutation (PrimitiveSet.entries scenarioSet)
              [rawEntry; taggedEntry; disabledEntry] /\
  result (WrappedPublicKeyVerify.verify (cryptoFormat := tinkCryptoFormat)
            scenarioSet (JsUint8Array (id1 ++ sig1)) (JsUint8Array msg1))
  = result (WrappedPublicKeyVerify.verify (cryptoFormat := tinkCryptoFormat)
              (PrimitiveSet.mkPrimitiveSet
                 [rawEntry; taggedEntry; disabledEntry])
              (JsUint8Array (id1 ++ sig1)) (JsUint8Array msg1)).
Proof.
  assert (H : Permutation (PrimitiveSet.entries scenarioSet)
                          [rawEntry; taggedEntry; disabledEntry])
    by exact (Permutation_rev (PrimitiveSet.entries scenarioSet)).
  split; [exact H|].
  exact (@verify_verdict_ignores_insertion_order tinkCryptoFormat scenarioSet
           (PrimitiveSet.mkPrimitiveSet [rawEntry; taggedEntry; disabledEntry])
           (id1 ++ sig1) msg1 H).
Defined.

(** The tagged signature of the scenario is still accepted after an entry
    with another tag has been added. *)
Lemma verify_accepts_after_insert_witness :
  result (WrappedPublicKeyVerify.verify (cryptoFormat := tinkCryptoFormat)
            scenarioSet (JsUint8Array (id1 ++ sig1)) (JsUint8Array msg1))
  = Ok true /\
  result (WrappedPublicKeyVerify.verify (cryptoFormat := tinkCryptoFormat)
            (PrimitiveSet.insert otherTaggedEntry scenarioSet)
            (JsUint8Array (id1 ++ sig1)) (JsUint8Array msg1))
  = Ok true.
Proof.
  split; [reflexivity|].
  apply (@verify_accepts_after_insert tinkCryptoFormat scenarioSet
           otherTaggedEntry (id1 ++ sig1) msg1).
  reflexivity.
Defined.

(** Dropping the entry tagged [id2] does not matter to a signature tagged
    [id1]. *)
Lemma verify_only_candidates_matter_witness :
  WrappedPublicKeyVerify.verify (cryptoFormat := tinkCryptoFormat)
    (restrict (rawOrTagged id1)
              (PrimitiveSet.insert otherTaggedEntry scenarioSet))
    (JsUint8Array (id1 ++ sig1)) (JsUint8Array msg1)
  = WrappedPublicKeyVerify.verify (cryptoFormat := tinkCryptoFormat)
      (PrimitiveSet.insert otherTaggedEntry scenarioSet)
      (JsUint8Array (id1 ++ sig1)) (JsUint8Array msg1).
Proof.
  apply (@verify_only_candidates_matter tinkCryptoFormat (rawOrTagged id1)
           (PrimitiveSet.insert otherTaggedEntry scenarioSet)
           (id1 ++ sig1) msg1).
  - intros e He Hraw. unfold rawOrTagged. rewrite Hraw. reflexivity.
  - intros _ e He Hnr Hid. vm_compute in He.
    destruct He as [<-|[<-|[<-|[<-|[]]]]];
      try reflexivity; try (exfalso; apply Hnr; reflexivity);
      vm_compute in Hid; discriminate.
Defined.

(** The one primitive call made for the tagged signature of the scenario. *)
Lemma verify_call_arguments_witness :
  In (EvVerify taggedEntry sig1 msg1)
     (trace (WrappedPublicKeyVerify.verify (cryptoFormat := tinkCryptoFormat)
               scenarioSet (JsUint8Array (id1 ++ sig1)) (JsUint8Array msg1)))
  /\ getKeyStatus taggedEntry = ENABLED.
Proof.
  assert (H : In (EvVerify taggedEntry sig1 msg1)
                 (trace (WrappedPublicKeyVerify.verify
                           (cryptoFormat := tinkCryptoFormat)
                           scenarioSet (JsUint8Array (id1 ++ sig1))
                           (JsUint8Array msg1))))
    by (right; left; reflexivity).
  split; [exact H|].
  exact (proj1 (proj2 (proj2
           (@verify_call_arguments tinkCryptoFormat scenarioSet
              (id1 ++ sig1) msg1 taggedEntry sig1 msg1 H)))).
Defined.

(** The tagged entry of the scenario and the signature it accepts. *)
Lemma verify_accepts_tagged_signature_witness :
  In taggedEntry (PrimitiveSet.entries scenarioSet) /\
  result (WrappedPublicKeyVerify.verify (cryptoFormat := tinkCryptoFormat)
            scenarioSet (JsUint8Array (getIdentifier taggedEntry ++ sig1))
            (JsUint8Array msg1))
  = Ok true.
Proof.
  assert (H : In taggedEntry (PrimitiveSet.entries scenarioSet))
    by (right; left; reflexivity).
  split; [exact H|].
  apply (@verify_accepts_tagged_signature tinkCryptoFormat scenarioSet
           taggedEntry sig1 msg1 H).
  - reflexivity.
  - simpl; discriminate.
  - reflexivity.
  - discriminate.
  - reflexivity.
Defined.

(** The raw entry of the scenario and the signature it accepts. *)
Lemma verify_accepts_raw_signature_witness :
  In rawEntry (PrimitiveSet.entries scenarioSet) /\
  result (WrappedPublicKeyVerify.verify (cryptoFormat := tinkCryptoFormat)
            scenarioSet (JsUint8Array sig1) (JsUint8Array msg1))
  = Ok true.
Proof.
  assert (H : In rawEntry (PrimitiveSet.entries scenarioSet))
    by (right; right; left; reflexivity).
  split; [exact H|].
  apply (@verify_accepts_raw_signature tinkCryptoFormat scenarioSet
           rawEntry sig1 msg1 H); reflexivity.
Defined.

(** The toy decoder's own exception on the payload [[x00]] is not the one
    that comes out. *)
Lemma getKeyProto_throws_SecurityException_only_witness :
  deserializeBinary (EcdsaCollaborators := toyCollaborators)
    (getValue undecodableKeyData)
  = Thrown (OtherException "Assertion failed"%string) /\
  exists msg,
    SecurityException EcdsaPublicKeyManager.CANNOT_PARSE
    = SecurityException msg.
Proof.
  split; [reflexivity|].
  apply (@getKeyProto_throws_SecurityException_only toyCollaborators
           (JsPbKeyData undecodableKeyData)).
  reflexivity.
Defined.

(** Key data that decodes to [completeKey]. *)
Lemma getPrimitive_serialized_as_parsed_witness :
  EcdsaPublicKeyManager.getKeyProto_ (collaborators := toyCollaborators)
    (JsPbKeyData goodKeyData) = Ok completeKey /\
  EcdsaPublicKeyManager.getPrimitive (collaborators := toyCollaborators)
    PublicKeyVerifyClass (JsPbKeyData goodKeyData)
  = EcdsaPublicKeyManager.getPrimitive (collaborators := toyCollaborators)
      PublicKeyVerifyClass (JsPbEcdsaPublicKey completeKey).
Proof.
  split; [reflexivity|].
  exact (proj2 (@getPrimitive_serialized_as_parsed toyCollaborators
                  goodKeyData completeKey PublicKeyVerifyClass eq_refl)).
Defined.

(** A validation that refuses a key without params. *)
Lemma getPrimitive_validation_failure_surfaces_witness :
  validatePublicKey (EcdsaCollaborators := strictCollaborators)
    paramlessKey EcdsaPublicKeyManager.VERSION
  = Thrown (SecurityException "invalid key"%string) /\
  EcdsaPublicKeyManager.getPrimitive (collaborators := strictCollaborators)
    PublicKeyVerifyClass (JsPbEcdsaPublicKey paramlessKey)
  = Thrown (SecurityException "invalid key"%string).
Proof.
  split; [reflexivity|].
  apply (@getPrimitive_validation_failure_surfaces strictCollaborators
           (JsPbEcdsaPublicKey paramlessKey) paramlessKey
           (SecurityException "invalid key"%string));
    reflexivity.
Defined.

(** A validation that lets a key without params through. *)
Lemma getPrimitive_parsed_key_without_params_witness :
  getParams paramlessKey = None /\
  forall primitive,
    EcdsaPublicKeyManager.getPrimitive (collaborators := toyCollaborators)
      PublicKeyVerifyClass (JsPbEcdsaPublicKey paramlessKey)
    <> Ok primitive.
Proof.
  split; [reflexivity|].
  exact (proj1 (@getPrimitive_parsed_key_without_params toyCollaborators
                  PublicKeyVerifyClass paramlessKey eq_refl)).
Defined.

(* ===================================================================== *)
(** ** What a verdict says about the calls made                          *)
(* ===================================================================== *)

Section Verdicts.
Context {cryptoFormat : CryptoFormat}.

Lemma TriedInOrder_false_calls (es : list Entry) (signature data : bytes)
      (t : list Event) :
  TriedInOrder es signature data false t ->
  t = map (invocation signature data) (filter isEnabled es) /\
  Forall (fun e => rejects e signature data) (filter isEnabled es).
Proof.
  intros H; inversion H; subst; split; [reflexivity|assumption].
Qed.

Lemma TriedInOrder_true_calls (es : list Entry) (signature data : bytes)
      (t : list Event) :
  TriedInOrder es signature data true t ->
  exists before e,
    t = map (invocation signature data) before ++ [EvVerify e signature data]
    /\ validates e signature data
    /\ Forall (fun e' => rejects e' signature data) before.
Proof.
  intros H; inversion H as [before after e t' Hf Hrej Hok Ht | ]; subst.
  exists before, e. rewrite map_app; simpl. repeat split; try assumption.
  apply isEnabled_true.
  assert (Hin : In e (filter isEnabled es))
    by (rewrite Hf; apply in_or_app; right; left; reflexivity).
  apply filter_In in Hin; tauto.
Qed.

Lemma rejected_calls (l : list Entry) (signature data : bytes) :
  Forall (fun e => rejects e signature data) l ->
  forall e' s' d',
    In (EvVerify e' s' d') (map (invocation signature data) l) ->
    rejects e' s' d'.
Proof.
  intros Hall e' s' d' Hin. apply in_map_iff in Hin.
  destruct Hin as (e & Heq & He). inversion Heq; subst.
  rewrite Forall_forall in Hall. apply Hall; assumption.
Qed.

(** X17.  When [verify] refuses a signature, no ENABLED candidate has been
    left out: for a signature longer than the prefix size the calls are the
    lookup by prefix, one call on the remainder for each ENABLED entry under
    that prefix, the raw lookup, and one call on the whole signature for
    each ENABLED raw entry, all in insertion order; for a shorter one, the
    raw lookup and the raw calls only. *)
Theorem verify_refusal_tried_every_candidate
        (ps : PrimitiveSet) (signature data : bytes) :
  result (WrappedPublicKeyVerify.verify ps (JsUint8Array signature)
                                        (JsUint8Array data)) = Ok false ->
  trace (WrappedPublicKeyVerify.verify ps (JsUint8Array signature)
                                       (JsUint8Array data))
  = (if NON_RAW_PREFIX_SIZE <? List.length signature then
       EvGetPrimitives (firstn NON_RAW_PREFIX_SIZE signature)
       :: map (invocation (skipn NON_RAW_PREFIX_SIZE signature) data)
              (filter isEnabled
                 (PrimitiveSet.entriesForPrefix ps
                    (firstn NON_RAW_PREFIX_SIZE signature)))
     else [])
    ++ EvGetRawPrimitives
    :: map (invocation signature data)
           (filter isEnabled (PrimitiveSet.rawEntries ps)).
Proof.
  destruct (verify_Dispatch ps signature data) as (b & t & Hrun & Hd).
  rewrite Hrun; unfold result, trace; simpl. intros Hb; inversion Hb; subst.
  inversion Hd as [ | b' t1 t2 Hlen H1 H2 | b' t2 Hlen H2]; subst.
  - apply Nat.ltb_lt in Hlen; rewrite Hlen.
    destruct (TriedInOrder_false_calls _ _ _ _ H1) as [-> _].
    destruct (TriedInOrder_false_calls _ _ _ _ H2) as [-> _].
    reflexivity.
  - apply Nat.ltb_ge in Hlen; rewrite Hlen.
    destruct (TriedInOrder_false_calls _ _ _ _ H2) as [-> _].
    reflexivity.
Qed.

(** X18.  When [verify] accepts a signature, the last thing it did was the
    call of an ENABLED entry whose primitive reported the passed bytes
    valid for the caller's data, and every primitive called before it had
    thrown or reported invalid. *)
Theorem verify_acceptance_ends_with_accepting_call
        (ps : PrimitiveSet) (signature data : bytes) :
  result (WrappedPublicKeyVerify.verify ps (JsUint8Array signature)
                                        (JsUint8Array data)) = Ok true ->
  exists earlier e s,
    trace (WrappedPublicKeyVerify.verify ps (JsUint8Array signature)
                                         (JsUint8Array data))
    = earlier ++ [EvVerify e s data] /\
    In e (PrimitiveSet.entries ps) /\
    validates e s data /\
    forall e' s' d', In (EvVerify e' s' d') earlier -> rejects e' s' d'.
Proof.
  destruct (verify_Dispatch ps signature data) as (b & t & Hrun & Hd).
  rewrite Hrun; unfold result, trace; simpl. intros Hb; inversion Hb; subst.
  assert (Hentry : forall e s d,
             In (EvVerify e s d) t -> In e (PrimitiveSet.entries ps)).
  { intros e s d Hin.
    destruct (Dispatch_calls _ _ _ _ _ Hd _ _ _ Hin)
      as (_ & _ & [(_ & He & _) | (He & _)]);
      apply filter_In in He; tauto. }
  inversion Hd as [t1 Hlen H1 | b' t1 t2 Hlen H1 H2 | b' t2 Hlen H2]; subst.
  - destruct (TriedInOrder_true_calls _ _ _ _ H1)
      as (before & e & -> & Hval & Hrej).
    exists (EvGetPrimitives (firstn NON_RAW_PREFIX_SIZE signature)
            :: map (invocation (skipn NON_RAW_PREFIX_SIZE signature) data)
                   before), e, (skipn NON_RAW_PREFIX_SIZE signature).
    repeat split; try (destruct Hval; assumption).
    + apply (Hentry e (skipn NON_RAW_PREFIX_SIZE signature) data).
      right. apply in_or_app; right; left; reflexivity.
    + intros e' s' d' [Hin|Hin]; [discriminate|].
      eapply rejected_calls; eassumption.
  - destruct (TriedInOrder_false_calls _ _ _ _ H1) as [-> Hrej1].
    destruct (TriedInOrder_true_calls _ _ _ _ H2)
      as (before & e & -> & Hval & Hrej).
    exists (EvGetPrimitives (firstn NON_RAW_PREFIX_SIZE signature)
            :: map (invocation (skipn NON_RAW_PREFIX_SIZE signature) data)
                   (filter isEnabled
                      (PrimitiveSet.entriesForPrefix ps
                         (firstn NON_RAW_PREFIX_SIZE signature)))
            ++ EvGetRawPrimitives
            :: map (invocation signature data) before), e, signature.
    repeat split; try (destruct Hval; assumption).
    + simpl. rewrite <- app_assoc. reflexivity.
    + apply (Hentry e signature data).
      right. apply in_or_app; right. right.
      apply in_or_app; right; left; reflexivity.
    + intros e' s' d' [Hin|Hin]; [discriminate|].
      apply in_app_or in Hin; destruct Hin as [Hin|[Hin|Hin]];
        [ exact (rejected_calls _ _ _ Hrej1 _ _ _ Hin)
        | discriminate
        | exact (rejected_calls _ _ _ Hrej _ _ _ Hin) ].
  - destruct (TriedInOrder_true_calls _ _ _ _ H2)
      as (before & e & -> & Hval & Hrej).
    exists (EvGetRawPrimitives :: map (invocation signature data) before),
      e, signature.
    repeat split; try (destruct Hval; assumption).
    + apply (Hentry e signature data).
      right. apply in_or_app; right; left; reflexivity.
    + intros e' s' d' [Hin|Hin]; [discriminate|].
      eapply rejected_calls; eassumption.
Qed.

End Verdicts.

(** The scenario's raw entry refuses a signature under an unknown tag. *)
Lemma verify_refusal_tried_every_candidate_witness :
  result (WrappedPublicKeyVerify.verify (cryptoFormat := tinkCryptoFormat)
            scenarioSet (JsUint8Array (id2 ++ sig1)) (JsUint8Array msg1))
  = Ok false /\
  trace (WrappedPublicKeyVerify.verify (cryptoFormat := tinkCryptoFormat)
           scenarioSet (JsUint8Array (id2 ++ sig1)) (JsUint8Array msg1))
  = [EvGetPrimitives id2; EvGetRawPrimitives;
     EvVerify rawEntry (id2 ++ sig1) msg1].
Proof.
  split; [reflexivity|].
  exact (@verify_refusal_tried_every_candidate tinkCryptoFormat scenarioSet
           (id2 ++ sig1) msg1 eq_refl).
Defined.

(** The scenario's tagged signature. *)
Lemma verify_acceptance_ends_with_accepting_call_witness :
  result (WrappedPublicKeyVerify.verify (cryptoFormat := tinkCryptoFormat)
            scenarioSet (JsUint8Array (id1 ++ sig1)) (JsUint8Array msg1))
  = Ok true /\
  exists earlier e s,
    trace (WrappedPublicKeyVerify.verify (cryptoFormat := tinkCryptoFormat)
             scenarioSet (JsUint8Array (id1 ++ sig1)) (JsUint8Array msg1))
    = earlier ++ [EvVerify e s msg1] /\
    validates e s msg1.
Proof.
  split; [reflexivity|].
  destruct (@verify_acceptance_ends_with_accepting_call tinkCryptoFormat
              scenarioSet (id1 ++ sig1) msg1 eq_refl)
    as (earlier & e & s & Htrace & _ & Hval & _).
  exists earlier, e, s. split; assumption.
Defined.
